(** * coverity_parser: a shallow embedding of script/coverity_parser.py

    The script reads one Coverity JSON report, filters its issue groups,
    classifies every defect against the MISRA tables and yields one
    dictionary per event.  The embedding keeps the dynamic typing of the
    Python code: a report is an arbitrary JSON value, every subscript,
    attribute access and comparison may raise, and the generators are
    state machines driven by [next]. *)

From Stdlib Require Import ZArith Floats.SpecFloat Numbers.DecimalString.
From Stdlib Require Import Strings.Ascii.
From Stdlib Require OrderedTypeEx.
From Stdlib Require Import Sorting.Sorted.
From stdpp Require Import base option list strings gmap.

Set Warnings "-register-all".
Local Open Scope Z_scope.
Local Open Scope string_scope.

(** ** Exceptions and the error monad *)

Inductive exn : Type :=
| KeyError (key : string)
| IndexError
| TypeError
| AttributeError (attr : string)
| UnboundLocalError (var : string)
| ValueError
| OSError
| JSONDecodeError.

Inductive result (A : Type) : Type :=
| Ok (a : A)
| Raise (e : exn).
Arguments Ok {A} a.
Arguments Raise {A} e.

#[global] Instance result_ret : MRet result := fun _ a => Ok a.

#[global] Instance result_bind : MBind result := fun _ _ f m =>
  match m with
  | Ok a => f a
  | Raise e => Raise e
  end.

#[global] Instance result_fmap : FMap result := fun _ _ f m =>
  match m with
  | Ok a => Ok (f a)
  | Raise e => Raise e
  end.

(** ** JSON values, as [json.load] returns them

    Strings are sequences of code points below 256; a [JObj] lists the
    items of the dictionary in insertion order, with distinct keys. *)

Inductive json : Type :=
| JNull
| JBool (b : bool)
| JInt (z : Z)
| JFloat (f : spec_float)
| JStr (s : string)
| JArr (l : list json)
| JObj (items : list (string * json)).

Fixpoint assoc (k : string) (items : list (string * json)) : option json :=
  match items with
  | [] => None
  | (k', v) :: rest => if String.eqb k k' then Some v else assoc k rest
  end.

(** [v[k]] with a string key. *)
Definition getitem (v : json) (k : string) : result json :=
  match v with
  | JObj items =>
      match assoc k items with
      | Some x => Ok x
      | None => Raise (KeyError k)
      end
  | _ => Raise TypeError
  end.

(** [v[0]]. *)
Definition getitem0 (v : json) : result json :=
  match v with
  | JArr (x :: _) => Ok x
  | JArr [] => Raise IndexError
  | JStr (String c _) => Ok (JStr (String c EmptyString))
  | JStr EmptyString => Raise IndexError
  | JObj _ => Raise (KeyError "0")
  | _ => Raise TypeError
  end.

(** [v.get(k)] and [v.get(k, d)]: only dictionaries have the method. *)
Definition get_default (v : json) (k : string) (d : json) : result json :=
  match v with
  | JObj items => Ok (default d (assoc k items))
  | _ => Raise (AttributeError "get")
  end.

Definition get (v : json) (k : string) : result json := get_default v k JNull.

(** The receiver of a [str] method. *)
Definition as_str (attr : string) (v : json) : result string :=
  match v with
  | JStr s => Ok s
  | _ => Raise (AttributeError attr)
  end.

(** [iter(v)], as a [for] loop or [filter] takes it. *)
Definition py_iter (v : json) : result (list json) :=
  match v with
  | JArr l => Ok l
  | JStr s => Ok (map (fun c => JStr (String c EmptyString)) (String.list_ascii_of_string s))
  | JObj items => Ok (map (fun kv => JStr (fst kv)) items)
  | _ => Raise TypeError
  end.

(** [v == s] for a string [s]; never raises. *)
Definition eq_str (v : json) (s : string) : bool :=
  match v with
  | JStr s' => String.eqb s' s
  | _ => false
  end.

(** [v in l] for a list of strings. *)
Definition in_strs (v : json) (l : list string) : bool :=
  existsb (eq_str v) l.

Definition SFis_zero (f : spec_float) : bool :=
  match f with
  | S754_zero _ => true
  | _ => false
  end.

(** Truth value of [v], as [not v] takes it. *)
Definition truthy (v : json) : bool :=
  match v with
  | JNull => false
  | JBool b => b
  | JInt z => negb (Z.eqb z 0)
  | JFloat f => negb (SFis_zero f)
  | JStr s => negb (String.eqb s "")
  | JArr l => match l with [] => false | _ => true end
  | JObj items => match items with [] => false | _ => true end
  end.

(** ** The [str] methods the script calls *)

Fixpoint mem_char (c : ascii) (chars : string) : bool :=
  match chars with
  | EmptyString => false
  | String c' rest => Ascii.eqb c c' || mem_char c rest
  end.

(** [s.lstrip(chars)]: drops every leading character that is in [chars]. *)
Fixpoint lstrip (chars : string) (s : string) : string :=
  match s with
  | EmptyString => EmptyString
  | String c s' => if mem_char c chars then lstrip chars s' else s
  end.

(** [s.startswith(p)]. *)
Definition startswith (s p : string) : bool := String.prefix p s.

Fixpoint zeros (n : nat) : string :=
  match n with
  | O => EmptyString
  | S n' => String "0" (zeros n')
  end.

(** [s.zfill(width)]: pads with zeros on the left, after a leading sign. *)
Definition zfill (width : nat) (s : string) : string :=
  let n := String.length s in
  if (width <=? n)%nat then s
  else
    match s with
    | String c rest =>
        if Ascii.eqb c "+" || Ascii.eqb c "-"
        then String c (zeros (width - n) +:+ rest)
        else zeros (width - n) +:+ s
    | EmptyString => zeros width
    end.

(** [str(n)] for an [int]. *)
Definition str_of_int (z : Z) : string := NilZero.string_of_int (Z.to_int z).

(** ** The rule tables *)

Definition IGNORED_DIRS : list string :=
  ["lib/libfdt"; "include/lib/libfdt"; "lib/compiler-rt"; "lib/zlib";
   "include/lib/zlib"].

Definition _rule_exclusions : list string :=
  ["MISRA C-2012 Rule 2.4"; "MISRA C-2012 Rule 2.5";
   "MISRA C-2012 Rule 2.7"; "MISRA C-2012 Rule 5.1";
   "MISRA C-2012 Rule 5.8"; "MISRA C-2012 Rule 8.6";
   "MISRA C-2012 Rule 8.7"; "MISRA C-2012 Rule 11.4";
   "MISRA C-2012 Rule 11.5"; "MISRA C-2012 Rule 15.1";
   "MISRA C-2012 Rule 15.5"; "MISRA C-2012 Rule 15.6";
   "MISRA C-2012 Rule 16.1"; "MISRA C-2012 Rule 16.3";
   "MISRA C-2012 Rule 17.1"; "MISRA C-2012 Rule 21.6";
   "MISRA C-2012 Directive 4.6"; "MISRA C-2012 Directive 4.8";
   "MISRA C-2012 Directive 4.9"].

(** The five sets are Python [set]s; only membership is ever asked, so
    each is the list of its elements. *)

Definition _dir_required : list string :=
  ["1.1"; "2.1"; "3.1"; "4.1"; "4.3"; "4.7"; "4.10"; "4.11"; "4.12";
   "4.14"].

Definition _dir_advisory : list string :=
  ["4.2"; "4.4"; "4.5"; "4.6"; "4.8"; "4.9"; "4.13"].

Definition _rule_mandatory : list string :=
  ["9.1"; "9.2"; "9.3"; "12.5"; "13.6"; "17.3"; "17.4"; "17.6"; "19.1";
   "21.13"; "21.17"; "21.18"; "21.19"; "21.20"; "22.2"; "22.5"; "22.6"].

Definition _rule_required : list string :=
  ["1.1"; "1.3"; "2.1"; "2.2"; "3.1"; "3.2"; "4.1"; "5.1"; "5.2"; "5.3";
   "5.4"; "5.5"; "5.6"; "5.7"; "5.8"; "6.1"; "6.2"; "7.1"; "7.2"; "7.3";
   "7.4"; "8.1"; "8.2"; "8.3"; "8.4"; "8.5"; "8.6"; "8.7"; "8.8"; "8.10";
   "8.12"; "8.14"; "9.2"; "9.3"; "9.4"; "9.5"; "10.1"; "10.2"; "10.3";
   "10.4"; "10.6"; "10.7"; "10.8"; "11.1"; "11.2"; "11.3"; "11.6";
   "11.7"; "11.8"; "11.9"; "12.2"; "13.1"; "13.2"; "13.5"; "14.1";
   "14.2"; "14.3"; "14.4"; "15.2"; "15.3"; "15.6"; "15.7"; "16.1";
   "16.2"; "16.3"; "16.4"; "16.5"; "16.6"; "16.7"; "17.1"; "17.2";
   "17.7"; "18.1"; "18.2"; "18.3"; "18.6"; "18.7"; "18.8"; "20.3";
   "20.4"; "20.6"; "20.7"; "20.8"; "20.9"; "20.11"; "20.12"; "20.13";
   "20.14"; "21.1"; "21.2"; "21.3"; "21.4"; "21.5"; "21.6"; "21.7";
   "21.8"; "21.9"; "21.10"; "21.11"; "21.14"; "21.15"; "21.16"; "22.1";
   "22.3"; "22.4"; "22.7"; "22.8"; "22.9"; "22.10"].

Definition _rule_advisory : list string :=
  ["1.2"; "2.3"; "2.4"; "2.5"; "2.6"; "2.7"; "4.2"; "5.9"; "8.9"; "8.11";
   "8.13"; "10.5"; "11.4"; "11.5"; "12.1"; "12.3"; "12.4"; "13.3";
   "13.4"; "15.1"; "15.4"; "15.5"; "17.5"; "17.8"; "18.4"; "18.5";
   "19.2"; "20.1"; "20.2"; "20.5"; "20.10"; "21.12"].

(** A dictionary of dictionaries, both in insertion order. *)
Definition _checker_lookup : list (string * list (string * list string)) :=
  [("Directive", [("required", _dir_required);
                  ("advisory", _dir_advisory)]);
   ("Rule", [("mandatory", _rule_mandatory);
             ("required", _rule_required);
             ("advisory", _rule_advisory)])].

Definition mem_str (s : string) (l : list string) : bool :=
  existsb (String.eqb s) l.

Fixpoint lookup_str {A} (k : string) (d : list (string * A)) : option A :=
  match d with
  | [] => None
  | (k', v) :: rest => if String.eqb k k' then Some v else lookup_str k rest
  end.

(** ** The regular expression [(?P<kind>\w+) (?P<number>[\d\.]+)$] *)

Definition in_range (lo hi : N) (c : ascii) : bool :=
  let n := N_of_ascii c in (N.leb lo n && N.leb n hi)%bool.

(** [\d]: the decimal digits. *)
Definition is_digit (c : ascii) : bool := in_range 48 57 c.

(** [\w] on a [str] pattern: the alphanumeric code points and the
    underscore. *)
Definition is_word (c : ascii) : bool :=
  in_range 48 57 c || in_range 65 90 c || in_range 95 95 c
  || in_range 97 122 c || in_range 170 170 c || in_range 178 179 c
  || in_range 181 181 c || in_range 185 186 c || in_range 188 190 c
  || in_range 192 214 c || in_range 216 246 c || in_range 248 255 c.

(** [[\d\.]]. *)
Definition is_number_char (c : ascii) : bool :=
  is_digit c || Ascii.eqb c ".".

(** [cls+] followed by the continuation [k]: greedy, the longest run is
    tried first and shorter ones on failure.  [k] receives the text
    matched and the rest of the subject. *)
Fixpoint plus {R} (cls : ascii -> bool) (s : string)
    (k : string -> string -> option R) : option R :=
  match s with
  | String c s' =>
      if cls c then
        match plus cls s' (fun m rest => k (String c m) rest) with
        | Some r => Some r
        | None => k (String c EmptyString) s'
        end
      else None
  | EmptyString => None
  end.

(** [$] without MULTILINE: the end of the subject, or just before a
    newline that ends it. *)
Definition at_end (s : string) : bool :=
  match s with
  | EmptyString => true
  | String c EmptyString => Ascii.eqb c "010"
  | _ => false
  end.

(** The pattern matched at the start of [s]; the two named groups. *)
Definition _checker_re_match (s : string) : option (string * string) :=
  plus is_word s (fun kind rest =>
    match rest with
    | String c rest1 =>
        if Ascii.eqb c " " then
          plus is_number_char rest1 (fun number rest2 =>
            if at_end rest2 then Some (kind, number) else None)
        else None
    | EmptyString => None
    end).

(** [_checker_re.search(s)]: the leftmost position where the pattern
    matches. *)
Fixpoint _checker_re_search (s : string) : option (string * string) :=
  match _checker_re_match s with
  | Some m => Some m
  | None =>
      match s with
      | String _ s' => _checker_re_search s'
      | EmptyString => None
      end
  end.

(** ** Classification *)

Definition first_class (number : string)
    (sets : list (string * list string)) : option string :=
  fst <$> List.find (fun kv => mem_str number (snd kv)) sets.

Definition _classify_checker (checker : json) : result string :=
  match checker with
  | JStr s =>
      match _checker_re_search s with
      | Some (kind, number) =>
          match lookup_str kind _checker_lookup with
          | Some sets => Ok (default "unknown" (first_class number sets))
          | None => Raise (KeyError kind)
          end
      | None => Ok "unknown"
      end
  | _ => Raise TypeError
  end.

(** ** Canonical issue records

    The dictionary built by [_new_issue] and [_new_issue_v7]; its six keys
    are the fields. *)

Record issue_dict : Type := {
  cid : json;
  file : json;
  line : json;
  checker : json;
  classification : string;
  description : json
}.

(** Return a copy of the original issue description.  Update file path to
    strip heading '/', and also insert CID. *)
Definition _new_issue (cid : json) (orig_issue : json) : result issue_dict :=
  checker ← getitem orig_issue "checker";
  classification ← _classify_checker checker;
  f ← getitem orig_issue "file";
  s ← as_str "lstrip" f;
  line ← getitem orig_issue "mainEventLineNumber";
  description ← getitem orig_issue "mainEventDescription";
  Ok {| cid := cid; file := JStr (lstrip "/" s); line := line;
        checker := checker; classification := classification;
        description := description |}.

Definition _new_issue_v7 (cid checker issue : json) : result issue_dict :=
  f ← getitem issue "strippedFilePathname";
  line ← getitem issue "lineNumber";
  classification ← _classify_checker checker;
  description ← getitem issue "eventDescription";
  Ok {| cid := cid; file := f; line := line; checker := checker;
        classification := classification; description := description |}.

Definition _cls_string (i : issue_dict) : string :=
  let cls := classification i in
  if String.eqb cls "unknown" then "" else " (" +:+ cls +:+ ")".

(** ** The sort key *)

Section Str.
(** [repr] of a [float] and of a [str] are left to the interpreter. *)
Variable repr_float : spec_float -> string.
Variable repr_str : string -> string.

Definition join (sep : string) (l : list string) : string :=
  match l with
  | [] => ""
  | x :: rest => fold_left (fun acc y => acc +:+ sep +:+ y) rest x
  end.

Fixpoint py_repr (v : json) : string :=
  match v with
  | JNull => "None"
  | JBool b => if b then "True" else "False"
  | JInt z => str_of_int z
  | JFloat f => repr_float f
  | JStr s => repr_str s
  | JArr l => "[" +:+ join ", " (map py_repr l) +:+ "]"
  | JObj items =>
      "{" +:+ join ", " (map (fun kv =>
                   match kv with
                   | (k, x) => repr_str k +:+ ": " +:+ py_repr x
                   end) items) +:+ "}"
  end.

(** [str(v)]. *)
Definition py_str (v : json) : string :=
  match v with
  | JStr s => s
  | _ => py_repr v
  end.

(** [a + b] where [b] is a [str]: only a [str] can be the left operand. *)
Definition add_str (a : json) (b : string) : result string :=
  match a with
  | JStr s => Ok (s +:+ b)
  | _ => Raise TypeError
  end.

(** Given an issue, make a string formed of file name, line number,
    checker, and the CID.  Convert integers to zero-padded strings for
    proper sorting. *)
Definition make_key (i : issue_dict) : result string :=
  k1 ← add_str (file i) (zfill 5 (py_str (line i)));
  k2 ← match checker i with
       | JStr c => Ok (k1 +:+ c)
       | _ => Raise TypeError
       end;
  Ok (k2 +:+ zfill 5 (py_str (cid i))).
End Str.

(** [a < b] on [str]: lexicographic on code points. *)
Definition str_lt (a b : string) : bool := String.ltb a b.

(** ** The group filters *)

(** The loop
    [for skip_dir in dirs: if <path>.startswith(skip_dir): return False];
    [path] is the expression, evaluated anew in every iteration.  The
    result is [true] when the loop returned. *)
Fixpoint in_skip_dirs (path : result string) (dirs : list string)
    : result bool :=
  match dirs with
  | [] => Ok false
  | skip_dir :: rest =>
      p ← path;
      if startswith p skip_dir then Ok true else in_skip_dirs path rest
  end.

(** Decide if we should keep an issue group from a v1-6 format dict. *)
Definition filter_groups_v1 (show_all : bool) (group : json) : result bool :=
  triage ← getitem group "triage";
  action ← getitem triage "action";
  if eq_str action "Ignore" then Ok false
  else
    occs ← getitem group "occurrences";
    first ← getitem0 occs;
    c ← getitem first "checker";
    if in_strs c _rule_exclusions then Ok false
    else
      hit ← in_skip_dirs
               (occs ← getitem group "occurrences";
                first ← getitem0 occs;
                f ← getitem first "file";
                s ← as_str "lstrip" f;
                Ok (lstrip "/" s))
               IGNORED_DIRS;
      if (hit : bool) then Ok false
      else if negb show_all then
        present ← getitem group "presentInComparisonSnapshot";
        Ok (negb (truthy present))
      else Ok true.

(** Decide if we should keep an issue group from a v7 format dict. *)
Definition filter_groups_v7 (group : json) : result bool :=
  name ← get group "checker_name";
  if in_strs name _rule_exclusions then Ok false
  else
    hit ← in_skip_dirs
             (f ← getitem group "strippedMainEventFilePathname";
              as_str "startswith" f)
             IGNORED_DIRS;
    if (hit : bool) then Ok false else Ok true.

(** ** The totals accumulator: a [collections.defaultdict(int)] *)

(** [d[k]] on the defaultdict: a missing key is inserted with [int()]. *)
Definition defaultdict_getitem (k : string) (d : gmap string Z)
    : Z * gmap string Z :=
  match d !! k with
  | Some v => (v, d)
  | None => (0, <[k := 0]> d)
  end.

(** [d[k] += 1]. *)
Definition incr (k : string) (d : gmap string Z) : gmap string Z :=
  let '(v, d') := defaultdict_getitem k d in <[k := v + 1]> d'.

(** ** The generators

    A generator object is the state it is suspended in.  [V1_start] and
    [V7_start] are generators whose body has not been entered; the loop
    states are suspended at the [yield], with the groups the [filter]
    iterator has not yet consumed, the current group and what is left of
    its inner loop.  [occurrence] is the local variable of
    [iter_issues_v1]: [None] as long as it is unbound. *)

Inductive generator : Type :=
| V1_start (report : json)
| V1_loop (groups : list json) (issue_group : json) (occs : list json)
    (occurrence : option json)
| V7_start (report : json)
| V7_loop (groups : list json) (issue_group : json) (events : list json)
| Finished.

Inductive outcome : Type :=
| Yield (i : issue_dict)
| StopIteration
| Raised (e : exn).

Definition local (var : string) (v : option json) : result json :=
  match v with
  | Some x => Ok x
  | None => Raise (UnboundLocalError var)
  end.

(** One round of the inner loop of [iter_issues_v1]:
    [yield _new_issue(issue_group["cid"], occurrence)]. *)
Definition v1_occurrence (groups : list json) (issue_group : json)
    (occurrence : json) (occs : list json) (totals : gmap string Z)
    : outcome * generator * gmap string Z :=
  match (c ← getitem issue_group "cid"; _new_issue c occurrence) with
  | Ok i => (Yield i, V1_loop groups issue_group occs (Some occurrence), totals)
  | Raise e => (Raised e, Finished, totals)
  end.

(** The outer loop of [iter_issues_v1], up to the next [yield]. *)
Fixpoint v1_groups (show_all : bool) (occurrence : option json)
    (groups : list json) (totals : gmap string Z)
    : outcome * generator * gmap string Z :=
  match groups with
  | [] => (StopIteration, Finished, totals)
  | issue_group :: groups' =>
      match filter_groups_v1 show_all issue_group with
      | Raise e => (Raised e, Finished, totals)
      | Ok false => v1_groups show_all occurrence groups' totals
      | Ok true =>
          match (o ← local "occurrence" occurrence;
                 name ← getitem o "checkerName";
                 _classify_checker name) with
          | Raise e => (Raised e, Finished, totals)
          | Ok cls =>
              let totals := incr "total" (incr cls totals) in
              match getitem issue_group "occurrences" ≫= py_iter with
              | Raise e => (Raised e, Finished, totals)
              | Ok [] => v1_groups show_all occurrence groups' totals
              | Ok (o :: occs) => v1_occurrence groups' issue_group o occs totals
              end
          end
      end
  end.

(** One round of the inner loop of [iter_issues_v7]. *)
Definition v7_event (groups : list json) (issue_group : json)
    (event : json) (events : list json) (totals : gmap string Z)
    : outcome * generator * gmap string Z :=
  match (c ← get issue_group "cid";
         name ← getitem issue_group "checkerName";
         _new_issue_v7 c name event) with
  | Ok i => (Yield i, V7_loop groups issue_group events, totals)
  | Raise e => (Raised e, Finished, totals)
  end.

(** The outer loop of [iter_issues_v7], up to the next [yield]. *)
Fixpoint v7_groups (groups : list json) (totals : gmap string Z)
    : outcome * generator * gmap string Z :=
  match groups with
  | [] => (StopIteration, Finished, totals)
  | issue_group :: groups' =>
      match filter_groups_v7 issue_group with
      | Raise e => (Raised e, Finished, totals)
      | Ok false => v7_groups groups' totals
      | Ok true =>
          match (name ← getitem issue_group "checkerName";
                 _classify_checker name) with
          | Raise e => (Raised e, Finished, totals)
          | Ok cls =>
              let totals := incr "total" (incr cls totals) in
              match getitem issue_group "events" ≫= py_iter with
              | Raise e => (Raised e, Finished, totals)
              | Ok [] => v7_groups groups' totals
              | Ok (ev :: events) => v7_event groups' issue_group ev events totals
              end
          end
      end
  end.

(** [next(g)] for a generator of [iter_issues_v1] or [iter_issues_v7] of
    an object with the given [show_all] and [totals]. *)
Definition next (show_all : bool) (g : generator) (totals : gmap string Z)
    : outcome * generator * gmap string Z :=
  match g with
  | V1_start report =>
      match getitem report "issueInfo" ≫= py_iter with
      | Raise e => (Raised e, Finished, totals)
      | Ok groups => v1_groups show_all None groups totals
      end
  | V1_loop groups issue_group occs occurrence =>
      match occs with
      | o :: occs' => v1_occurrence groups issue_group o occs' totals
      | [] => v1_groups show_all occurrence groups totals
      end
  | V7_start report =>
      match getitem report "issues" ≫= py_iter with
      | Raise e => (Raised e, Finished, totals)
      | Ok groups => v7_groups groups totals
      end
  | V7_loop groups issue_group events =>
      match events with
      | ev :: events' => v7_event groups issue_group ev events' totals
      | [] => v7_groups groups totals
      end
  | Finished => (StopIteration, Finished, totals)
  end.

(** ** The [Issues] class *)

Record Issues : Type := {
  path : string;
  show_all : bool;
  iterated : bool;
  totals : gmap string Z;
  gen : option generator
}.

Definition __init__ (path : string) (show_all : bool) : Issues :=
  {| path := path; show_all := show_all; iterated := false;
     totals := ∅; gen := None |}.

(** What [open(path)] followed by [json.load] gives for each path. *)
Definition filesystem : Type := string -> result json.

(** [f >= n] for a float and an integer, on the exact values. *)
Definition SF_ge_Z (f : spec_float) (n : Z) : bool :=
  match f with
  | S754_nan => false
  | S754_infinity s => negb s
  | S754_zero _ => Z.leb n 0
  | S754_finite s m e =>
      let v := if s then Z.neg m else Z.pos m in
      if Z.leb 0 e then Z.leb n (v * 2 ^ e) else Z.leb (n * 2 ^ (- e)) v
  end.

(** [v >= n] for an integer [n]: [bool] is a subclass of [int]; the other
    types do not order against [int]. *)
Definition ge_int (v : json) (n : Z) : result bool :=
  match v with
  | JInt z => Ok (Z.leb n z)
  | JBool b => Ok (Z.leb n (if b then 1 else 0))
  | JFloat f => Ok (SF_ge_Z f n)
  | _ => Raise TypeError
  end.

(** [_gen] is an ordinary method: it loads the report and returns a
    generator of the adapter that [formatVersion] selects, not yet
    entered. *)
Definition _gen (fs : filesystem) (self : Issues) : result generator :=
  report ← fs (path self);
  v ← get_default report "formatVersion" (JInt 0);
  b ← ge_int v 7;
  Ok (if (b : bool) then V7_start report else V1_start report).

(** The generator that [__iter__] returns: not yet entered, delegating to
    [self.gen], or finished. *)
Inductive iter_state : Type := It_start | It_from | It_done.

Definition yield_from (self : Issues) : outcome * iter_state * Issues :=
  match gen self with
  | None => (Raised TypeError, It_done, self)
  | Some g =>
      let '(out, g', totals') := next (show_all self) g (totals self) in
      let self' := {| path := path self; show_all := show_all self;
                      iterated := iterated self; totals := totals';
                      gen := Some g' |} in
      match out with
      | Yield i => (Yield i, It_from, self')
      | _ => (out, It_done, self')
      end
  end.

(** [next] on the generator of [__iter__]. *)
Definition iter_next (fs : filesystem) (st : iter_state) (self : Issues)
    : outcome * iter_state * Issues :=
  match st with
  | It_start =>
      match gen self with
      | None =>
          match _gen fs self with
          | Raise e => (Raised e, It_done, self)
          | Ok g =>
              yield_from {| path := path self; show_all := show_all self;
                            iterated := iterated self; totals := totals self;
                            gen := Some g |}
          end
      | Some _ => yield_from self
      end
  | It_from => yield_from self
  | It_done => (StopIteration, It_done, self)
  end.

(** A [for] loop over the generator of [__iter__] that runs to the end:
    the records it received, the exception that ended it if one did, and
    the object afterwards.  [fuel] bounds the calls of [next]. *)
Fixpoint for_loop (fs : filesystem) (fuel : nat) (st : iter_state)
    (self : Issues) : option (list issue_dict * option exn * Issues) :=
  match fuel with
  | O => None
  | S fuel' =>
      match iter_next fs st self with
      | (Yield i, st', self') =>
          match for_loop fs fuel' st' self' with
          | Some (rest, e, self'') => Some (i :: rest, e, self'')
          | None => None
          end
      | (StopIteration, _, self') => Some ([], None, self')
      | (Raised e, _, self') => Some ([], Some e, self')
      end
  end.

(** [for issue in self: ...], from a fresh call of [__iter__]. *)
Definition iterate (fs : filesystem) (fuel : nat) (self : Issues)
    : option (list issue_dict * option exn * Issues) :=
  for_loop fs fuel It_start self.

(** ** The totals dump *)

Definition nl : string := String "010" EmptyString.

(** [str.isspace] on one character. *)
Definition is_space (c : ascii) : bool :=
  in_range 9 13 c || in_range 28 32 c || in_range 133 133 c
  || in_range 160 160 c.

Fixpoint lstrip_space (s : string) : string :=
  match s with
  | EmptyString => EmptyString
  | String c s' => if is_space c then lstrip_space s' else s
  end.

Fixpoint rstrip_space (s : string) : string :=
  match s with
  | EmptyString => EmptyString
  | String c s' =>
      match rstrip_space s' with
      | EmptyString => if is_space c then EmptyString else String c EmptyString
      | r => String c r
      end
  end.

(** [str.strip(s)]. *)
Definition strip (s : string) : string := rstrip_space (lstrip_space s).

Definition TOTALS_FORMAT : string :=
  strip (nl +:+ "TotalDefects:     {total}" +:+ nl
         +:+ "MandatoryDefects: {mandatory}" +:+ nl
         +:+ "RequiredDefects:  {required}" +:+ nl
         +:+ "AdvisoryDefects:  {advisory}" +:+ nl).

(** Where the scanner of a format string stands. *)
Inductive fmt_state : Type :=
| Text
| Open
| Field (name : string)
| Close.

(** [s.format_map(d)] for the format strings whose replacement fields are
    plain names, which is what [TOTALS_FORMAT] has: [{{] and [}}] are
    braces, [{name}] is [str(d[name])].  [d] is the defaultdict, so a
    missing name is inserted on the way. *)
Fixpoint format_from (st : fmt_state) (s : string) (d : gmap string Z)
    : result (string * gmap string Z) :=
  match s with
  | EmptyString =>
      match st with
      | Text => Ok (EmptyString, d)
      | _ => Raise ValueError
      end
  | String c s' =>
      match st with
      | Text =>
          if Ascii.eqb c "{" then format_from Open s' d
          else if Ascii.eqb c "}" then format_from Close s' d
          else '(out, d') ← format_from Text s' d; Ok (String c out, d')
      | Open =>
          if Ascii.eqb c "{" then
            '(out, d') ← format_from Text s' d; Ok (String c out, d')
          else if Ascii.eqb c "}" then Raise ValueError
          else format_from (Field (String c EmptyString)) s' d
      | Field name =>
          if Ascii.eqb c "}" then
            let '(v, d1) := defaultdict_getitem name d in
            '(out, d') ← format_from Text s' d1;
            Ok (str_of_int v +:+ out, d')
          else if Ascii.eqb c "{" then Raise ValueError
          else format_from (Field (name +:+ String c EmptyString)) s' d
      | Close =>
          if Ascii.eqb c "}" then
            '(out, d') ← format_from Text s' d; Ok (String c out, d')
          else Raise ValueError
      end
  end.

Definition format_map (s : string) (d : gmap string Z)
    : result (string * gmap string Z) :=
  format_from Text s d.

(** [s.split(sep)] for a one-character separator. *)
Fixpoint split (sep : ascii) (s : string) : list string :=
  match s with
  | EmptyString => [EmptyString]
  | String c s' =>
      if Ascii.eqb c sep then EmptyString :: split sep s'
      else
        match split sep s' with
        | x :: rest => String c x :: rest
        | [] => [String c EmptyString]
        end
  end.

(** The lines of a text. *)
Definition lines (s : string) : list string := split "010" s.

(** ** Reports of the two schemas

    The shape of a well-formed legacy occurrence, group and report, and of
    a current event, group and report.  The key of a current group that
    holds the checker is a parameter: [filter_groups_v7] reads
    ["checker_name"], [iter_issues_v7] reads ["checkerName"]. *)

Definition legacy_occurrence (checker file line description : json) : json :=
  JObj [("checker", checker); ("file", file);
        ("mainEventLineNumber", line);
        ("mainEventDescription", description)].

Definition legacy_group (cid action present : json)
    (occurrences : list json) : json :=
  JObj [("cid", cid); ("triage", JObj [("action", action)]);
        ("presentInComparisonSnapshot", present);
        ("occurrences", JArr occurrences)].

Definition legacy_report (groups : list json) : json :=
  JObj [("issueInfo", JArr groups)].

Definition current_event (file line description : json) : json :=
  JObj [("strippedFilePathname", file); ("lineNumber", line);
        ("eventDescription", description)].

Definition current_group (key : string) (name file cid : json)
    (events : list json) : json :=
  JObj [(key, name); ("strippedMainEventFilePathname", file);
        ("cid", cid); ("events", JArr events)].

Definition current_report (version : json) (groups : list json) : json :=
  JObj [("formatVersion", version); ("issues", JArr groups)].

(** One kept group of two occurrences and one group whose checker is in
    the exclusion list. *)
Definition two_group_report : json :=
  legacy_report
    [legacy_group (JInt 101) (JStr "Undecided") (JBool false)
       [legacy_occurrence (JStr "MISRA C-2012 Rule 9.1") (JStr "/plat/a.c")
          (JInt 2) (JStr "first");
        legacy_occurrence (JStr "MISRA C-2012 Rule 9.1") (JStr "/plat/a.c")
          (JInt 10) (JStr "second")];
     legacy_group (JInt 102) (JStr "Undecided") (JBool false)
       [legacy_occurrence (JStr "MISRA C-2012 Rule 2.4") (JStr "/plat/b.c")
          (JInt 7) (JStr "third")]].

(** One group of two events in a version 7 report. *)
Definition one_group_report (key : string) (file : string) : json :=
  current_report (JInt 7)
    [current_group key (JStr "MISRA C-2012 Rule 9.1") (JStr file) (JInt 101)
       [current_event (JStr file) (JInt 2) (JStr "first");
        current_event (JStr file) (JInt 10) (JStr "second")]].

(** The file system in which every path holds [report]. *)
Definition on_disk (report : json) : filesystem := fun _ => Ok report.

(** ** Measures and predicates of the proofs *)

Definition is_yield (out : outcome) : bool :=
  match out with
  | Yield _ => true
  | _ => false
  end.

(** An upper bound on the records a generator can still yield: what is
    left of the inner loop and the inner sequences of the groups not yet
    visited. *)
Definition inner_length (key : string) (group : json) : nat :=
  match getitem group key ≫= py_iter with
  | Ok l => length l
  | Raise _ => 0%nat
  end.

Definition groups_pending (key : string) (groups : list json) : nat :=
  sum_list (map (inner_length key) groups).

Definition report_pending (top key : string) (report : json) : nat :=
  match getitem report top ≫= py_iter with
  | Ok groups => groups_pending key groups
  | Raise _ => 0%nat
  end.

Definition pending (g : generator) : nat :=
  match g with
  | V1_start report => report_pending "issueInfo" "occurrences" report
  | V1_loop groups _ occs _ =>
      (length occs + groups_pending "occurrences" groups)%nat
  | V7_start report => report_pending "issues" "events" report
  | V7_loop groups _ events =>
      (length events + groups_pending "events" groups)%nat
  | Finished => 0%nat
  end.

(** The same bound for an object, whose generator may not exist yet. *)
Definition bound (fs : filesystem) (self : Issues) : nat :=
  match gen self with
  | Some g => pending g
  | None =>
      match _gen fs self with
      | Ok g => pending g
      | Raise _ => 0%nat
      end
  end.

(** An object whose sequence is used up: its generator has finished, or
    could not be created. *)
Definition exhausted (fs : filesystem) (self : Issues) : Prop :=
  gen self = Some Finished
  \/ (gen self = None /\ exists e, _gen fs self = Raise e).

(** Every character of [s] is in the class. *)
Fixpoint all_chars (cls : ascii -> bool) (s : string) : bool :=
  match s with
  | EmptyString => true
  | String c s' => cls c && all_chars cls s'
  end.

(** [s] does not begin with a character of the class. *)
Definition stops (cls : ascii -> bool) (s : string) : bool :=
  match s with
  | EmptyString => true
  | String c _ => negb (cls c)
  end.

(** A generator of [iter_issues_v1]. *)
Definition is_legacy (g : generator) : bool :=
  match g with
  | V1_start _ | V1_loop _ _ _ _ => true
  | _ => false
  end.

(** The four classes a checker can fall in. *)
Definition classes : list string :=
  ["mandatory"; "required"; "advisory"; "unknown"].

(** [n] path separators. *)
Fixpoint slashes (n : nat) : string :=
  match n with
  | O => EmptyString
  | S n' => String "/" (slashes n')
  end.

(** The count the accumulator holds for a key, 0 when it holds none. *)
Definition count (k : string) (t : gmap string Z) : Z := default 0 (t !! k).

(** The total is the sum of the four classes. *)
Definition balanced (t : gmap string Z) : Prop :=
  count "total" t
  = count "mandatory" t + count "required" t + count "advisory" t
    + count "unknown" t.

(** The line of a record as [make_key] writes it. *)
Definition line_text (z : Z) : string := zfill 5 (str_of_int z).

(** The [n] lines from [z] on. *)
Fixpoint lines_from (n : nat) (z : Z) : list Z :=
  match n with
  | O => []
  | S n' => z :: lines_from n' (z + 1)
  end.

(** [s] is empty or ends with a character that is not of a word. *)
Fixpoint last_not_word (s : string) : bool :=
  match s with
  | EmptyString => true
  | String c EmptyString => negb (is_word c)
  | String _ s' => last_not_word s'
  end.

(** ** Well-formed reports of the current schema, as data

    A group names its checker under "checkerName", the key that
    [iter_issues_v7] reads; the fields that the script passes on
    unexamined are arbitrary JSON values. *)

Record cur_event : Type := {
  ev_file : json;
  ev_line : json;
  ev_text : json
}.

Record cur_group : Type := {
  g_name : string;
  g_path : string;
  g_cid : json;
  g_events : list cur_event
}.

Definition encode_event (e : cur_event) : json :=
  current_event (ev_file e) (ev_line e) (ev_text e).

Definition encode_group (g : cur_group) : json :=
  current_group "checkerName" (JStr (g_name g)) (JStr (g_path g)) (g_cid g)
    (map encode_event (g_events g)).

(** The group lies under no ignored directory. *)
Definition outside_ignored (g : cur_group) : bool :=
  negb (existsb (startswith (g_path g)) IGNORED_DIRS).

(** The record of one event of a group of class [cls]. *)
Definition event_record (cls : string) (g : cur_group) (e : cur_event)
    : issue_dict :=
  {| cid := g_cid g; file := ev_file e; line := ev_line e;
     checker := JStr (g_name g); classification := cls;
     description := ev_text e |}.

(** What a whole pass over the groups is to give: the records in order,
    the exception that ends the pass if one does, and the totals. *)
Fixpoint whole_pass (groups : list cur_group) (t : gmap string Z)
    : list issue_dict * option exn * gmap string Z :=
  match groups with
  | [] => ([], None, t)
  | g :: groups' =>
      if outside_ignored g then
        match _classify_checker (JStr (g_name g)) with
        | Raise e => ([], Some e, t)
        | Ok cls =>
            let '(recs, e, t') :=
              whole_pass groups' (incr "total" (incr cls t)) in
            ((map (event_record cls g) (g_events g) ++ recs)%list, e, t')
        end
      else whole_pass groups' t
  end.

(** The object with its generator and its totals replaced. *)
Definition set_state (self : Issues) (g : generator) (t : gmap string Z)
    : Issues :=
  {| path := path self; show_all := show_all self;
     iterated := iterated self; totals := t; gen := Some g |}.

(** ** The two renderings of a record *)

(** The dictionary that a record is. *)
Definition issue_items (i : issue_dict) : list (string * json) :=
  [("cid", cid i); ("file", file i); ("line", line i);
   ("checker", checker i); ("classification", JStr (classification i));
   ("description", description i)].

(** [dict(d, k=v)] for a key that [d] does not hold. *)
Definition dict_with (d : list (string * json)) (k : string) (v : json)
    : list (string * json) :=
  (d ++ [(k, v)])%list.

Fixpoint snoc (s : string) (c : ascii) : string :=
  match s with
  | EmptyString => String c EmptyString
  | String x s' => String x (snoc s' c)
  end.

(** [s.format_map(d)] for a plain dictionary and a format string whose
    replacement fields are plain names: [{name}] is [str(d[name])], and a
    name that [d] does not hold raises KeyError. *)
Fixpoint format_fields (repr_float : spec_float -> string)
    (repr_str : string -> string) (d : list (string * json))
    (st : fmt_state) (s : string) : result string :=
  match s with
  | EmptyString =>
      match st with
      | Text => Ok EmptyString
      | _ => Raise ValueError
      end
  | String c s' =>
      match st with
      | Text =>
          if Ascii.eqb c "{" then format_fields repr_float repr_str d Open s'
          else if Ascii.eqb c "}"
          then format_fields repr_float repr_str d Close s'
          else out ← format_fields repr_float repr_str d Text s';
               Ok (String c out)
      | Open =>
          if Ascii.eqb c "{" then
            out ← format_fields repr_float repr_str d Text s';
            Ok (String c out)
          else if Ascii.eqb c "}" then Raise ValueError
          else format_fields repr_float repr_str d
                 (Field (String c EmptyString)) s'
      | Field name =>
          if Ascii.eqb c "}" then
            match assoc name d with
            | None => Raise (KeyError name)
            | Some v =>
                out ← format_fields repr_float repr_str d Text s';
                Ok (py_str repr_float repr_str v +:+ out)
            end
          else if Ascii.eqb c "{" then Raise ValueError
          else format_fields repr_float repr_str d (Field (snoc name c)) s'
      | Close =>
          if Ascii.eqb c "}" then
            out ← format_fields repr_float repr_str d Text s';
            Ok (String c out)
          else Raise ValueError
      end
  end.

(** Format issue (returned from iter_issues()) as text. *)
Definition format_issue (repr_float : spec_float -> string)
    (repr_str : string -> string) (i : issue_dict) : result string :=
  format_fields repr_float repr_str
    (dict_with (issue_items i) "cls" (JStr (_cls_string i))) Text
    "{file}:{line}:[{checker}{cls}]<{cid}> {description}".




(** ** The driver

    The script run without [--output]: the records of the report are
    collected, sorted by their key, printed one per line, the totals are
    rendered when [--totals] is given, and the exit status tells whether
    any record was printed. *)

(** [[f(x) for x in l]], ending at the first exception. *)
Fixpoint map_result {A B} (f : A -> result B) (l : list A)
    : result (list B) :=
  match l with
  | [] => Ok []
  | x :: l' => y ← f x; ys ← map_result f l'; Ok (y :: ys)
  end.

(** [sorted] is a stable sort on the keys, compared with [<]: an element
    goes in front of the first one whose key is not smaller than its
    own. *)
Fixpoint insert_keyed (x : string * issue_dict)
    (l : list (string * issue_dict)) : list (string * issue_dict) :=
  match l with
  | [] => [x]
  | y :: l' =>
      if str_lt (fst y) (fst x) then y :: insert_keyed x l' else x :: l
  end.

Definition sort_keyed (l : list (string * issue_dict))
    : list (string * issue_dict) :=
  fold_right insert_keyed [] l.

(** [sorted(issues, key=lambda i: make_key(i))]: the keys are computed
    first, for every record. *)
Definition sorted_by_key (repr_float : spec_float -> string)
    (repr_str : string -> string) (l : list issue_dict)
    : result (list issue_dict) :=
  keyed ← map_result
             (fun i => k ← make_key repr_float repr_str i; Ok (k, i)) l;
  Ok (map snd (sort_keyed keyed)).

Record run : Type := {
  printed : list string;
  issues : list issue_dict;
  totals_file : option string;
  exit_status : Z
}.

Definition main (repr_float : spec_float -> string)
    (repr_str : string -> string) (fs : filesystem) (fuel : nat)
    (show_all want_totals : bool) (json_report : string)
    : option (result run) :=
  let issue_cls := __init__ json_report show_all in
  match iterate fs fuel issue_cls with
  | None => None
  | Some (_, Some e, _) => Some (Raise e)
  | Some (recs, None, issue_cls') =>
      Some (sorted ← sorted_by_key repr_float repr_str recs;
            out ← map_result (format_issue repr_float repr_str) sorted;
            text ← (if want_totals then
                      '(text, _) ← format_map TOTALS_FORMAT
                                      (totals issue_cls');
                      Ok (Some text)
                    else Ok None);
            Ok {| printed := out; issues := sorted; totals_file := text;
                  exit_status := match sorted with
                                 | [] => 0
                                 | _ :: _ => 1
                                 end |})
  end.

(** The keys of a list of records are in order. *)
Definition keys_in_order (repr_float : spec_float -> string)
    (repr_str : string -> string) (l : list issue_dict) : Prop :=
  exists keys,
    Forall2 (fun i k => make_key repr_float repr_str i = Ok k) l keys
    /\ Sorted (fun a b => str_lt b a = false) keys.

(** The groups of a pass that are kept, and the events they hold. *)
Definition kept_groups (groups : list cur_group) : list cur_group :=
  List.filter outside_ignored groups.

Definition kept_events (groups : list cur_group) : list cur_event :=
  flat_map g_events (kept_groups groups).

(** The checker of the group has a class. *)
Definition classified (g : cur_group) : Prop :=
  exists cls, _classify_checker (JStr (g_name g)) = Ok cls.

(** * Properties *)

(** ** Strings *)

Lemma str_app_cons (x : ascii) (a b : string) :
  String x a +:+ b = String x (a +:+ b).
Proof. reflexivity. Qed.

Lemma str_app_assoc (a b c : string) : (a +:+ b) +:+ c = a +:+ (b +:+ c).
Proof.
  induction a as [|x a IH]; [reflexivity|].
  now rewrite !str_app_cons, IH.
Qed.

Lemma str_app_nil_r (a : string) : a +:+ "" = a.
Proof.
  induction a as [|x a IH]; [reflexivity|].
  now rewrite str_app_cons, IH.
Qed.

(** ** Classification *)

Example classify_rule_9_1 :
  _classify_checker (JStr "MISRA C-2012 Rule 9.1") = Ok "mandatory".
Proof. reflexivity. Qed.

Example classify_directive_4_10 :
  _classify_checker (JStr "MISRA C-2012 Directive 4.10") = Ok "required".
Proof. reflexivity. Qed.

Example classify_rule_99_9 :
  _classify_checker (JStr "MISRA C-2012 Rule 99.9") = Ok "unknown".
Proof. reflexivity. Qed.

(** A number that two sets of a kind hold takes the label of the first. *)
Example classify_rule_9_2 :
  mem_str "9.2" _rule_required = true /\
  _classify_checker (JStr "MISRA C-2012 Rule 9.2") = Ok "mandatory".
Proof. split; reflexivity. Qed.

(** [$] also matches before a final newline. *)
Example classify_trailing_newline :
  _classify_checker (JStr ("Rule 9.1" +:+ nl)) = Ok "mandatory".
Proof. reflexivity. Qed.

Lemma classify_no_match (s : string) :
  _checker_re_search s = None -> _classify_checker (JStr s) = Ok "unknown".
Proof. intros H. unfold _classify_checker. now rewrite H. Qed.

Lemma lookup_kind (kind : string) :
  lookup_str kind _checker_lookup =
    if String.eqb kind "Directive"
    then Some [("required", _dir_required); ("advisory", _dir_advisory)]
    else if String.eqb kind "Rule"
    then Some [("mandatory", _rule_mandatory); ("required", _rule_required);
               ("advisory", _rule_advisory)]
    else None.
Proof. reflexivity. Qed.

Lemma classify_directive (s number : string) :
  _checker_re_search s = Some ("Directive", number) ->
  _classify_checker (JStr s) =
    Ok (if mem_str number _dir_required then "required"
        else if mem_str number _dir_advisory then "advisory"
        else "unknown").
Proof.
  intros H. unfold _classify_checker. rewrite H.
  change (lookup_str "Directive" _checker_lookup)
    with (Some [("required", _dir_required); ("advisory", _dir_advisory)]).
  unfold first_class. cbn [List.find snd fst].
  destruct (mem_str number _dir_required); [reflexivity|].
  destruct (mem_str number _dir_advisory); reflexivity.
Qed.

Lemma classify_rule (s number : string) :
  _checker_re_search s = Some ("Rule", number) ->
  _classify_checker (JStr s) =
    Ok (if mem_str number _rule_mandatory then "mandatory"
        else if mem_str number _rule_required then "required"
        else if mem_str number _rule_advisory then "advisory"
        else "unknown").
Proof.
  intros H. unfold _classify_checker. rewrite H.
  change (lookup_str "Rule" _checker_lookup)
    with (Some [("mandatory", _rule_mandatory); ("required", _rule_required);
                ("advisory", _rule_advisory)]).
  unfold first_class. cbn [List.find snd fst].
  destruct (mem_str number _rule_mandatory); [reflexivity|].
  destruct (mem_str number _rule_required); [reflexivity|].
  destruct (mem_str number _rule_advisory); reflexivity.
Qed.

Lemma classify_other_kind (s kind number : string) :
  _checker_re_search s = Some (kind, number) ->
  kind <> "Directive" -> kind <> "Rule" ->
  _classify_checker (JStr s) = Raise (KeyError kind).
Proof.
  intros H Hd Hr. unfold _classify_checker. rewrite H, lookup_kind.
  apply String.eqb_neq in Hd, Hr. now rewrite Hd, Hr.
Qed.

(** A maximal run of the class is what [cls+] takes first. *)
Lemma plus_stops {R} (cls : ascii -> bool) (rest : string)
    (k : string -> string -> option R) :
  stops cls rest = true -> plus cls rest k = None.
Proof.
  destruct rest as [|c rest]; [reflexivity|]. cbn [stops plus].
  now destruct (cls c).
Qed.

Lemma plus_run {R} (cls : ascii -> bool) (c : ascii) (run rest : string)
    (k : string -> string -> option R) (r : R) :
  all_chars cls (String c run) = true -> stops cls rest = true ->
  k (String c run) rest = Some r ->
  plus cls (String c run +:+ rest) k = Some r.
Proof.
  revert c k. induction run as [|c' run IH]; intros c k Hall Hstop Hk.
  - cbn [all_chars] in Hall. apply andb_true_iff in Hall as [Hc _].
    rewrite str_app_cons. change (EmptyString +:+ rest) with rest.
    cbn [plus]. rewrite Hc. now rewrite plus_stops.
  - cbn [all_chars] in Hall. apply andb_true_iff in Hall as [Hc Hall].
    rewrite str_app_cons. cbn [plus]. rewrite Hc.
    now rewrite (IH c' (fun m rest => k (String c m) rest)).
Qed.

Lemma search_match (s : string) (m : string * string) :
  _checker_re_match s = Some m -> _checker_re_search s = Some m.
Proof. intros H. destruct s; cbn [_checker_re_search]; now rewrite H. Qed.

(** A checker that is exactly a word, a blank and a dotted number matches
    with these two groups. *)
Lemma search_kind_number (a b : ascii) (kind number : string) :
  all_chars is_word (String a kind) = true ->
  all_chars is_number_char (String b number) = true ->
  _checker_re_search (String a kind +:+ " " +:+ String b number)
  = Some (String a kind, String b number).
Proof.
  intros Hk Hn.
  assert (H : _checker_re_match (String a kind +:+ " " +:+ String b number)
              = Some (String a kind, String b number)).
  { unfold _checker_re_match. apply plus_run; [assumption|reflexivity|].
    cbn [String.append Ascii.eqb Bool.eqb andb].
    change (" " +:+ String b number) with (String " " (String b number)).
    cbn [Ascii.eqb Bool.eqb andb].
    rewrite <- (str_app_nil_r (String b number)) at 1.
    now apply plus_run. }
  now apply search_match.
Qed.

(** Every checker ["<word> <number>"] whose word is not a known kind
    raises. *)
Lemma classify_plain_other_kind (a b : ascii) (kind number : string) :
  all_chars is_word (String a kind) = true ->
  all_chars is_number_char (String b number) = true ->
  String a kind <> "Directive" -> String a kind <> "Rule" ->
  _classify_checker (JStr (String a kind +:+ " " +:+ String b number))
  = Raise (KeyError (String a kind)).
Proof.
  intros Hk Hn Hd Hr.
  apply (classify_other_kind _ _ (String b number)); auto.
  now apply search_kind_number.
Qed.

(** C3: the checker "Foo 1.1" matches the pattern with the kind word
    "Foo", which is neither "Directive" nor "Rule"; [_classify_checker]
    does not return "unknown" there, the lookup of the kind raises
    KeyError. *)
Theorem classify_foo_raises :
  _checker_re_search "Foo 1.1" = Some ("Foo", "1.1") /\
  _classify_checker (JStr "Foo 1.1") = Raise (KeyError "Foo").
Proof. split; reflexivity. Qed.

(** ** The legacy stream *)

(** As long as [occurrence] is unbound the outer loop of [iter_issues_v1]
    never reaches a [yield] and never touches the totals: it skips the
    dropped groups and ends at the first kept one. *)
Lemma v1_groups_unbound (show_all : bool) (groups : list json)
    (t : gmap string Z) :
  exists out, v1_groups show_all None groups t = (out, Finished, t)
              /\ is_yield out = false.
Proof.
  induction groups as [|g groups IH]; cbn [v1_groups].
  - now exists StopIteration.
  - destruct (filter_groups_v1 show_all g) as [[|]|e].
    + now exists (Raised (UnboundLocalError "occurrence")).
    + exact IH.
    + now exists (Raised e).
Qed.

Lemma v1_groups_kept_unbound (show_all : bool) (g : json)
    (groups : list json) (t : gmap string Z) :
  filter_groups_v1 show_all g = Ok true ->
  v1_groups show_all None (g :: groups) t
  = (Raised (UnboundLocalError "occurrence"), Finished, t).
Proof. intros H. cbn [v1_groups]. now rewrite H. Qed.

(** The first [next] on a fresh generator of [iter_issues_v1] ends it. *)
Lemma v1_start_never_yields (show_all : bool) (report : json)
    (t : gmap string Z) :
  exists out, next show_all (V1_start report) t = (out, Finished, t)
              /\ is_yield out = false.
Proof.
  cbn [next]. destruct (getitem report "issueInfo" ≫= py_iter) as [groups|e].
  - apply v1_groups_unbound.
  - now exists (Raised e).
Qed.

(** C1: on a legacy report with one kept group of two occurrences the
    stream yields no record and increments no total; the first kept group
    makes [iter_issues_v1] read its local [occurrence] before the inner
    loop has bound it, and the generator ends with UnboundLocalError. *)
Theorem legacy_kept_group_raises :
  filter_groups_v1 false
    (legacy_group (JInt 101) (JStr "Undecided") (JBool false)
       [legacy_occurrence (JStr "MISRA C-2012 Rule 9.1") (JStr "/plat/a.c")
          (JInt 2) (JStr "first");
        legacy_occurrence (JStr "MISRA C-2012 Rule 9.1") (JStr "/plat/a.c")
          (JInt 10) (JStr "second")]) = Ok true /\
  iterate (on_disk two_group_report) 3 (__init__ "report.json" false)
  = Some ([], Some (UnboundLocalError "occurrence"),
          {| path := "report.json"; show_all := false; iterated := false;
             totals := ∅; gen := Some Finished |}).
Proof. split; vm_compute; reflexivity. Qed.

(** ** The current stream *)

(** C2: on a version 7 report whose group carries its checker under
    "checker_name" the stream yields no record and increments no total;
    [iter_issues_v7] reads the key "checkerName" and ends with KeyError. *)
Theorem current_checker_name_raises :
  filter_groups_v7
    (current_group "checker_name" (JStr "MISRA C-2012 Rule 9.1")
       (JStr "plat/a.c") (JInt 101)
       [current_event (JStr "plat/a.c") (JInt 2) (JStr "first");
        current_event (JStr "plat/a.c") (JInt 10) (JStr "second")])
  = Ok true /\
  iterate (on_disk (one_group_report "checker_name" "plat/a.c")) 3
    (__init__ "report.json" false)
  = Some ([], Some (KeyError "checkerName"),
          {| path := "report.json"; show_all := false; iterated := false;
             totals := ∅; gen := Some Finished |}).
Proof. split; vm_compute; reflexivity. Qed.

(** With the key "checkerName" the same report gives what the claim
    describes: one increment per group, one record per event. *)
Example current_checkerName_run :
  iterate (on_disk (one_group_report "checkerName" "plat/a.c")) 3
    (__init__ "report.json" false)
  = Some ([ {| cid := JInt 101; file := JStr "plat/a.c"; line := JInt 2;
               checker := JStr "MISRA C-2012 Rule 9.1";
               classification := "mandatory"; description := JStr "first" |};
            {| cid := JInt 101; file := JStr "plat/a.c"; line := JInt 10;
               checker := JStr "MISRA C-2012 Rule 9.1";
               classification := "mandatory"; description := JStr "second" |} ],
          None,
          {| path := "report.json"; show_all := false; iterated := false;
             totals := {[ "mandatory" := 1; "total" := 1 ]};
             gen := Some Finished |}).
Proof. vm_compute. reflexivity. Qed.

(** The exclusion list is consulted under "checker_name" only: a group
    that names an excluded rule under "checkerName" is kept. *)
Example current_exclusion_key :
  filter_groups_v7
    (current_group "checker_name" (JStr "MISRA C-2012 Rule 2.4")
       (JStr "plat/a.c") (JInt 1) []) = Ok false /\
  filter_groups_v7
    (current_group "checkerName" (JStr "MISRA C-2012 Rule 2.4")
       (JStr "plat/a.c") (JInt 1) []) = Ok true.
Proof. split; reflexivity. Qed.

(** ** Schema detection *)

(** C4, as the code has it: the decision is [formatVersion >= 7] with 0
    for an absent key.  Integers, booleans and floats are compared by
    value, so a negative number selects the legacy adapter; a string,
    null, an array or an object raises TypeError, and a document that is
    not an object raises AttributeError. *)
Theorem gen_cases (self : Issues) (report : json) :
  _gen (on_disk report) self =
    match report with
    | JObj items =>
        match assoc "formatVersion" items with
        | None => Ok (V1_start report)
        | Some (JInt z) =>
            Ok (if Z.leb 7 z then V7_start report else V1_start report)
        | Some (JBool _) => Ok (V1_start report)
        | Some (JFloat f) =>
            Ok (if SF_ge_Z f 7 then V7_start report else V1_start report)
        | Some _ => Raise TypeError
        end
    | _ => Raise (AttributeError "get")
    end.
Proof.
  unfold _gen, on_disk. cbn [mbind result_bind].
  destruct report as [| | | | | |items]; try reflexivity.
  unfold get_default. cbn [mbind result_bind].
  destruct (assoc "formatVersion" items) as [[|[]| | | | |]|]; reflexivity.
Qed.

(** C4 fails for a version that is a string: no adapter is selected. *)
Lemma gen_string_version_raises :
  _gen (on_disk (JObj [("formatVersion", JStr "7"); ("issues", JArr [])]))
    (__init__ "report.json" false) = Raise TypeError.
Proof. reflexivity. Qed.

Lemma gen_negative_version (self : Issues) (items : list (string * json))
    (z : Z) :
  assoc "formatVersion" items = Some (JInt z) -> z < 0 ->
  _gen (on_disk (JObj items)) self = Ok (V1_start (JObj items)).
Proof.
  intros H Hz. unfold _gen, on_disk, get_default.
  cbn [mbind result_bind]. rewrite H.
  cbn [from_option id ge_int mbind result_bind].
  destruct (Z.leb_spec 7 z); [lia | reflexivity].
Qed.

Example gen_versions :
  _gen (on_disk (current_report (JInt 7) [])) (__init__ "r" false)
  = Ok (V7_start (current_report (JInt 7) []))
  /\ _gen (on_disk (current_report (JInt 6) [])) (__init__ "r" false)
     = Ok (V1_start (current_report (JInt 6) []))
  /\ _gen (on_disk (legacy_report [])) (__init__ "r" false)
     = Ok (V1_start (legacy_report []))
  /\ _gen (on_disk (current_report (JBool true) [])) (__init__ "r" false)
     = Ok (V1_start (current_report (JBool true) []))
  /\ _gen (on_disk (current_report JNull [])) (__init__ "r" false)
     = Raise TypeError.
Proof. repeat split; reflexivity. Qed.

(** ** File paths of the records *)

Lemma lstrip_slash_no_sep (s : string) : startswith (lstrip "/" s) "/" = false.
Proof.
  induction s as [|c s IH]; [reflexivity|].
  cbn [lstrip mem_char]. destruct (Ascii.eqb_spec c "/") as [->|Hc].
  - exact IH.
  - cbn [orb]. unfold startswith. cbn [String.prefix].
    destruct (Ascii.ascii_dec "/" c) as [E|_]; [now subst|reflexivity].
Qed.

Lemma lstrip_slash_cons (s : string) : lstrip "/" ("/" +:+ s) = lstrip "/" s.
Proof. reflexivity. Qed.

Lemma new_issue_file (c o : json) (i : issue_dict) :
  _new_issue c o = Ok i ->
  exists s, getitem o "file" = Ok (JStr s) /\ file i = JStr (lstrip "/" s).
Proof.
  unfold _new_issue. intros H.
  destruct (getitem o "checker") as [ch|]; [|discriminate].
  cbn [mbind result_bind] in H.
  destruct (_classify_checker ch) as [cl|]; [|discriminate].
  cbn [mbind result_bind] in H.
  destruct (getitem o "file") as [f|]; [|discriminate].
  cbn [mbind result_bind] in H.
  destruct f as [| | | |s| |]; try discriminate.
  cbn [as_str mbind result_bind] in H.
  destruct (getitem o "mainEventLineNumber") as [ln|]; [|discriminate].
  cbn [mbind result_bind] in H.
  destruct (getitem o "mainEventDescription") as [d|]; [|discriminate].
  cbn [mbind result_bind] in H.
  injection H as <-. now exists s.
Qed.

Lemma new_issue_v7_file (c name ev : json) (i : issue_dict) :
  _new_issue_v7 c name ev = Ok i ->
  getitem ev "strippedFilePathname" = Ok (file i) /\ cid i = c
  /\ checker i = name.
Proof.
  unfold _new_issue_v7. intros H.
  destruct (getitem ev "strippedFilePathname") as [f|]; [|discriminate].
  cbn [mbind result_bind] in H.
  destruct (getitem ev "lineNumber") as [ln|]; [|discriminate].
  cbn [mbind result_bind] in H.
  destruct (_classify_checker name) as [cl|]; [|discriminate].
  cbn [mbind result_bind] in H.
  destruct (getitem ev "eventDescription") as [d|]; [|discriminate].
  cbn [mbind result_bind] in H.
  now injection H as <-.
Qed.

Lemma v1_occurrence_yield (groups : list json) (g o : json)
    (occs : list json) (t t' : gmap string Z) (i : issue_dict)
    (g' : generator) :
  v1_occurrence groups g o occs t = (Yield i, g', t') ->
  exists c, _new_issue c o = Ok i.
Proof.
  unfold v1_occurrence. destruct (getitem g "cid") as [c|]; [|discriminate].
  cbn [mbind result_bind].
  destruct (_new_issue c o) as [i'|] eqn:E; [|discriminate].
  intros [= <- _ _]. now exists c.
Qed.

Lemma v1_groups_yield (sa : bool) (occ : option json) (groups : list json)
    (t t' : gmap string Z) (i : issue_dict) (g' : generator) :
  v1_groups sa occ groups t = (Yield i, g', t') ->
  exists c o, _new_issue c o = Ok i.
Proof.
  revert t. induction groups as [|g groups IH]; intros t; cbn [v1_groups].
  - discriminate.
  - destruct (filter_groups_v1 sa g) as [[|]|e]; [| apply IH | discriminate].
    destruct (o ← local "occurrence" occ; name ← getitem o "checkerName";
              _classify_checker name) as [cls|e]; [|discriminate].
    destruct (getitem g "occurrences" ≫= py_iter) as [[|o occs]|e];
      [apply IH | | discriminate].
    intros H. apply v1_occurrence_yield in H as [c H]. now exists c, o.
Qed.

(** Every record that a legacy generator yields was built by
    [_new_issue]. *)
Lemma legacy_next_yield (sa : bool) (g g' : generator)
    (t t' : gmap string Z) (i : issue_dict) :
  is_legacy g = true -> next sa g t = (Yield i, g', t') ->
  exists c o, _new_issue c o = Ok i.
Proof.
  destruct g as [report|groups grp occs occ| | |]; try discriminate;
    intros _; cbn [next].
  - destruct (getitem report "issueInfo" ≫= py_iter);
      [apply v1_groups_yield | discriminate].
  - destruct occs as [|o occs]; [apply v1_groups_yield|].
    intros H. apply v1_occurrence_yield in H as [c H]. now exists c, o.
Qed.

(** C5, as the code has it: a record built by the legacy adapter
    [_new_issue] carries the occurrence's file stripped of its leading
    separators, so the path of a record that a legacy generator yields
    never begins with "/"; a record built by the current adapter
    [_new_issue_v7] carries the event's strippedFilePathname unchanged. *)
Theorem adapters_file_path :
  (forall (c o : json) (i : issue_dict),
     _new_issue c o = Ok i ->
     exists s, getitem o "file" = Ok (JStr s)
               /\ file i = JStr (lstrip "/" s)
               /\ startswith (lstrip "/" s) "/" = false)
  /\ (forall (sa : bool) (g g' : generator) (t t' : gmap string Z)
         (i : issue_dict),
        is_legacy g = true -> next sa g t = (Yield i, g', t') ->
        exists s, file i = JStr s /\ startswith s "/" = false)
  /\ (forall (c name ev : json) (i : issue_dict),
        _new_issue_v7 c name ev = Ok i ->
        getitem ev "strippedFilePathname" = Ok (file i)).
Proof.
  split; [|split].
  - intros c o i H. destruct (new_issue_file c o i H) as (s & Hs & Hf).
    exists s. auto using lstrip_slash_no_sep.
  - intros sa g g' t t' i Hg H.
    destruct (legacy_next_yield sa g g' t t' i Hg H) as (c & o & Hi).
    destruct (new_issue_file c o i Hi) as (s & _ & Hf).
    exists (lstrip "/" s). auto using lstrip_slash_no_sep.
  - intros c name ev i H. now destruct (new_issue_v7_file c name ev i H).
Qed.

Lemma adapters_file_path_witness :
  (exists s,
     getitem (legacy_occurrence (JStr "MISRA C-2012 Rule 9.1")
                (JStr "//plat/a.c") (JInt 2) (JStr "first")) "file"
     = Ok (JStr s)
     /\ JStr "plat/a.c" = JStr (lstrip "/" s)
     /\ startswith (lstrip "/" s) "/" = false)
  /\ (exists s, JStr "plat/a.c" = JStr s /\ startswith s "/" = false)
  /\ getitem (current_event (JStr "/plat/a.c") (JInt 2) (JStr "first"))
       "strippedFilePathname" = Ok (JStr "/plat/a.c").
Proof.
  split; [|split].
  - apply (proj1 adapters_file_path (JInt 101)
             (legacy_occurrence (JStr "MISRA C-2012 Rule 9.1")
                (JStr "//plat/a.c") (JInt 2) (JStr "first"))
             {| cid := JInt 101; file := JStr "plat/a.c"; line := JInt 2;
                checker := JStr "MISRA C-2012 Rule 9.1";
                classification := "mandatory";
                description := JStr "first" |}).
    reflexivity.
  - apply (proj1 (proj2 adapters_file_path) false
             (V1_loop []
                (legacy_group (JInt 101) (JStr "Undecided") (JBool false) [])
                [legacy_occurrence (JStr "MISRA C-2012 Rule 9.1")
                   (JStr "//plat/a.c") (JInt 2) (JStr "first")]
                None)
             (V1_loop []
                (legacy_group (JInt 101) (JStr "Undecided") (JBool false) [])
                []
                (Some (legacy_occurrence (JStr "MISRA C-2012 Rule 9.1")
                         (JStr "//plat/a.c") (JInt 2) (JStr "first"))))
             ∅ ∅
             {| cid := JInt 101; file := JStr "plat/a.c"; line := JInt 2;
                checker := JStr "MISRA C-2012 Rule 9.1";
                classification := "mandatory";
                description := JStr "first" |});
      reflexivity.
  - apply (proj2 (proj2 adapters_file_path) (JInt 101)
             (JStr "MISRA C-2012 Rule 9.1")
             (current_event (JStr "/plat/a.c") (JInt 2) (JStr "first"))
             {| cid := JInt 101; file := JStr "/plat/a.c"; line := JInt 2;
                checker := JStr "MISRA C-2012 Rule 9.1";
                classification := "mandatory";
                description := JStr "first" |}).
    reflexivity.
Defined.

(** C5 fails under the current adapter: the stream yields a record whose
    path begins with "/". *)
Lemma current_record_keeps_separator :
  exists i rest e self',
    iterate (on_disk (one_group_report "checkerName" "/plat/a.c")) 3
      (__init__ "report.json" false) = Some (i :: rest, e, self')
    /\ file i = JStr "/plat/a.c"
    /\ startswith "/plat/a.c" "/" = true.
Proof.
  eexists _, _, _, _. split; [vm_compute; reflexivity|].
  split; reflexivity.
Qed.

(** ** The directory policy in the filters *)

Lemma in_skip_dirs_ok (p : string) (dirs : list string) :
  in_skip_dirs (Ok p) dirs = Ok (existsb (startswith p) dirs).
Proof.
  induction dirs as [|d dirs IH]; [reflexivity|].
  cbn [in_skip_dirs existsb mbind result_bind].
  destruct (startswith p d); [reflexivity | exact IH].
Qed.

Lemma in_skip_dirs_raise (e : exn) (d : string) (dirs : list string) :
  in_skip_dirs (Raise e) (d :: dirs) = Raise e.
Proof. reflexivity. Qed.

Lemma in_strs_str (s : string) (l : list string) :
  in_strs (JStr s) l = mem_str s l.
Proof. reflexivity. Qed.

(** The filter on a group of the legacy shape, fields of any type. *)
Lemma filter_groups_v1_legacy (sa : bool) (c action present : json)
    (name f ln d : json) (rest : list json) :
  filter_groups_v1 sa
    (legacy_group c action present (legacy_occurrence name f ln d :: rest))
  = if eq_str action "Ignore" then Ok false
    else if in_strs name _rule_exclusions then Ok false
    else
      hit ← in_skip_dirs (s ← as_str "lstrip" f; Ok (lstrip "/" s))
              IGNORED_DIRS;
      if (hit : bool) then Ok false
      else if negb sa then Ok (negb (truthy present)) else Ok true.
Proof. reflexivity. Qed.

(** The filter on a group of the current shape. *)
Lemma filter_groups_v7_current (key : string) (name f c : json)
    (events : list json) :
  key <> "strippedMainEventFilePathname" ->
  filter_groups_v7 (current_group key name f c events)
  = if in_strs (if String.eqb "checker_name" key then name else JNull)
         _rule_exclusions
    then Ok false
    else
      hit ← in_skip_dirs (as_str "startswith" f) IGNORED_DIRS;
      if (hit : bool) then Ok false else Ok true.
Proof.
  intros Hk. unfold filter_groups_v7, current_group, get, get_default.
  cbn [mbind result_bind assoc].
  assert (Hf : getitem (JObj [(key, name);
                  ("strippedMainEventFilePathname", f); ("cid", c);
                  ("events", JArr events)]) "strippedMainEventFilePathname"
               = Ok f).
  { cbn [getitem assoc]. apply not_eq_sym, String.eqb_neq in Hk.
    now rewrite Hk, String.eqb_refl. }
  rewrite Hf. cbn [mbind result_bind].
  destruct (String.eqb "checker_name" key); reflexivity.
Qed.

(** C6, as the code has it: the legacy filter strips the leading
    separators of the first occurrence's file before the prefix test, so
    its decision is the same for [p] and for ["/" + p]; the current filter
    tests strippedMainEventFilePathname as it stands. *)
Theorem filter_leading_separator (sa : bool) (c action present : json)
    (name ln d : json) (rest : list json) (p : string)
    (f : string) (events : list json) :
  filter_groups_v1 sa
    (legacy_group c action present
       (legacy_occurrence name (JStr ("/" +:+ p)) ln d :: rest))
  = filter_groups_v1 sa
      (legacy_group c action present
         (legacy_occurrence name (JStr p) ln d :: rest))
  /\ filter_groups_v7 (current_group "checker_name" name (JStr f) c events)
     = Ok (negb (in_strs name _rule_exclusions)
           && negb (existsb (startswith f) IGNORED_DIRS)).
Proof.
  split.
  - rewrite !filter_groups_v1_legacy. cbn [as_str mbind result_bind].
    now rewrite lstrip_slash_cons.
  - rewrite filter_groups_v7_current by discriminate.
    cbn [String.eqb Ascii.eqb Bool.eqb as_str].
    destruct (in_strs name _rule_exclusions); [reflexivity|].
    rewrite in_skip_dirs_ok. cbn [mbind result_bind negb andb].
    now destruct (existsb (startswith f) IGNORED_DIRS).
Qed.

(** C6 fails for the current filter: the group under "lib/libfdt" is
    dropped, the same group under "/lib/libfdt" is kept. *)
Lemma current_filter_separator :
  filter_groups_v7
    (current_group "checker_name" (JStr "MISRA C-2012 Rule 9.1")
       (JStr "lib/libfdt/fdt.c") (JInt 101) []) = Ok false
  /\ filter_groups_v7
       (current_group "checker_name" (JStr "MISRA C-2012 Rule 9.1")
          (JStr ("/" +:+ "lib/libfdt/fdt.c")) (JInt 101) []) = Ok true.
Proof. split; reflexivity. Qed.

(** ** The legacy group filter *)

(** C7: a legacy group with a first occurrence is kept exactly when its
    action is not "Ignore", the checker of its first occurrence is not
    excluded, the stripped file of its first occurrence is under no
    ignored directory, and [show_all] is set or the group is not present
    in the comparison snapshot; a dropped group is passed over by the
    loop of [iter_issues_v1], which neither yields for it nor changes the
    totals. *)
Theorem filter_groups_v1_kept_iff (sa : bool) (c ln d : json)
    (action name f : string) (present : bool) (rest : list json) :
  let group :=
    legacy_group c (JStr action) (JBool present)
      (legacy_occurrence (JStr name) (JStr f) ln d :: rest) in
  filter_groups_v1 sa group
  = Ok (negb (String.eqb action "Ignore")
        && negb (mem_str name _rule_exclusions)
        && negb (existsb (startswith (lstrip "/" f)) IGNORED_DIRS)
        && (sa || negb present))
  /\ (forall (occurrence : option json) (groups : list json)
        (t : gmap string Z),
        filter_groups_v1 sa group = Ok false ->
        v1_groups sa occurrence (group :: groups) t
        = v1_groups sa occurrence groups t).
Proof.
  intros group. split.
  - unfold group. rewrite filter_groups_v1_legacy.
    cbn [eq_str as_str mbind result_bind truthy]. rewrite in_strs_str.
    destruct (String.eqb action "Ignore"); [reflexivity|].
    destruct (mem_str name _rule_exclusions); [reflexivity|].
    rewrite in_skip_dirs_ok. cbn [mbind result_bind negb andb].
    destruct (existsb (startswith (lstrip "/" f)) IGNORED_DIRS);
      [reflexivity|].
    now destruct sa, present.
  - intros occurrence groups t H. cbn [v1_groups]. now rewrite H.
Qed.

Lemma filter_groups_v1_kept_iff_witness :
  v1_groups false None
    [legacy_group (JInt 7) (JStr "Ignore") (JBool false)
       [legacy_occurrence (JStr "MISRA C-2012 Rule 9.1") (JStr "/plat/a.c")
          (JInt 2) (JStr "first")]] ∅
  = v1_groups false None [] ∅.
Proof.
  apply (proj2 (filter_groups_v1_kept_iff false (JInt 7) (JInt 2)
                  (JStr "first") "Ignore" "MISRA C-2012 Rule 9.1"
                  "/plat/a.c" false [])).
  reflexivity.
Defined.

(** A dropped group in any position: the stream runs as if the group were
    not in the report. *)
Lemma v1_groups_drop (sa : bool) (occurrence : option json)
    (before after : list json) (g : json) (t : gmap string Z) :
  filter_groups_v1 sa g = Ok false ->
  Forall (fun g' => filter_groups_v1 sa g' = Ok false) before ->
  v1_groups sa occurrence (before ++ g :: after) t
  = v1_groups sa occurrence (before ++ after) t.
Proof.
  intros Hg Hb. induction Hb as [|g' before Hg' _ IH]; cbn [app v1_groups].
  - now rewrite Hg.
  - now rewrite Hg'.
Qed.

(** ** The sort key *)

Lemma str_lt_app (p a b : string) : str_lt (p +:+ a) (p +:+ b) = str_lt a b.
Proof.
  unfold str_lt, String.ltb. induction p as [|c p IH]; [reflexivity|].
  rewrite !str_app_cons. cbn [String.compare]. unfold Ascii.compare.
  now rewrite N.compare_refl.
Qed.

Lemma make_key_concat (repr_float : spec_float -> string)
    (repr_str : string -> string) (i : issue_dict) (f c : string) :
  file i = JStr f -> checker i = JStr c ->
  make_key repr_float repr_str i
  = Ok (f +:+ zfill 5 (py_str repr_float repr_str (line i)) +:+ c
        +:+ zfill 5 (py_str repr_float repr_str (cid i))).
Proof.
  intros Hf Hc. unfold make_key. rewrite Hf, Hc.
  cbn [add_str mbind result_bind]. now rewrite !str_app_assoc.
Qed.

(** C8: the key of a record is its file, its line as text filled to five
    digits, its checker and its defect id as text filled to five digits,
    in this order; of two records of one file, the one at line 2 has the
    key that is strictly smaller, whatever their checkers and ids. *)
Theorem make_key_line_order (repr_float : spec_float -> string)
    (repr_str : string -> string) (i1 i2 : issue_dict) (f c1 c2 : string) :
  file i1 = JStr f -> file i2 = JStr f ->
  checker i1 = JStr c1 -> checker i2 = JStr c2 ->
  line i1 = JInt 2 -> line i2 = JInt 10 ->
  exists k1 k2,
    make_key repr_float repr_str i1 = Ok k1
    /\ make_key repr_float repr_str i2 = Ok k2
    /\ k1 = f +:+ zfill 5 (py_str repr_float repr_str (line i1)) +:+ c1
            +:+ zfill 5 (py_str repr_float repr_str (cid i1))
    /\ k2 = f +:+ zfill 5 (py_str repr_float repr_str (line i2)) +:+ c2
            +:+ zfill 5 (py_str repr_float repr_str (cid i2))
    /\ zfill 5 (py_str repr_float repr_str (line i1)) = "00002"
    /\ zfill 5 (py_str repr_float repr_str (line i2)) = "00010"
    /\ str_lt k1 k2 = true.
Proof.
  intros Hf1 Hf2 Hc1 Hc2 Hl1 Hl2.
  eexists _, _.
  split; [exact (make_key_concat _ _ i1 f c1 Hf1 Hc1)|].
  split; [exact (make_key_concat _ _ i2 f c2 Hf2 Hc2)|].
  split; [reflexivity|]. split; [reflexivity|].
  rewrite Hl1, Hl2. split; [reflexivity|]. split; [reflexivity|].
  rewrite str_lt_app. reflexivity.
Qed.

Lemma make_key_line_order_witness :
  exists k1 k2,
    make_key (fun _ => "") (fun s => s)
      {| cid := JInt 7; file := JStr "plat/a.c"; line := JInt 2;
         checker := JStr "MISRA C-2012 Rule 9.1";
         classification := "mandatory"; description := JStr "first" |}
    = Ok k1
    /\ make_key (fun _ => "") (fun s => s)
         {| cid := JInt 3; file := JStr "plat/a.c"; line := JInt 10;
            checker := JStr "MISRA C-2012 Directive 4.10";
            classification := "required"; description := JStr "second" |}
       = Ok k2
    /\ k1 = "plat/a.c00002MISRA C-2012 Rule 9.100007"
    /\ k2 = "plat/a.c00010MISRA C-2012 Directive 4.1000003"
    /\ str_lt k1 k2 = true.
Proof.
  destruct (make_key_line_order (fun _ => "") (fun s => s)
              {| cid := JInt 7; file := JStr "plat/a.c"; line := JInt 2;
                 checker := JStr "MISRA C-2012 Rule 9.1";
                 classification := "mandatory";
                 description := JStr "first" |}
              {| cid := JInt 3; file := JStr "plat/a.c"; line := JInt 10;
                 checker := JStr "MISRA C-2012 Directive 4.10";
                 classification := "required";
                 description := JStr "second" |}
              "plat/a.c" "MISRA C-2012 Rule 9.1"
              "MISRA C-2012 Directive 4.10"
              eq_refl eq_refl eq_refl eq_refl eq_refl eq_refl)
    as (k1 & k2 & H1 & H2 & E1 & E2 & _ & _ & Hlt).
  exists k1, k2. repeat split; assumption.
Defined.

Example str_of_int_examples :
  str_of_int 0 = "0" /\ str_of_int 10 = "10" /\ str_of_int (-12) = "-12"
  /\ zfill 5 (str_of_int (-12)) = "-0012" /\ zfill 5 "" = "00000".
Proof. repeat split; reflexivity. Qed.

(** Without the padding the order would be the other way round. *)
Example unpadded_order : str_lt "2" "10" = false /\ str_lt "00002" "00010" = true.
Proof. split; reflexivity. Qed.

(** A line of six digits is not padded, and sorts by its first digit. *)
Example six_digit_line :
  zfill 5 (str_of_int 100000) = "100000" /\
  str_lt (zfill 5 (str_of_int 100000)) (zfill 5 (str_of_int 20000)) = true.
Proof. split; reflexivity. Qed.

(** ** The totals dump *)

Lemma defaultdict_getitem_eq (k : string) (d : gmap string Z) :
  defaultdict_getitem k d
  = (default 0 (d !! k), <[k := default 0 (d !! k)]> d).
Proof.
  unfold defaultdict_getitem. destruct (d !! k) as [v|] eqn:E; cbn.
  - now rewrite insert_id.
  - reflexivity.
Qed.

Lemma string_of_uint_no_nl (u : Decimal.uint) :
  mem_char "010" (NilEmpty.string_of_uint u) = false.
Proof. induction u; cbn; auto. Qed.

Lemma str_of_int_no_nl (z : Z) : mem_char "010" (str_of_int z) = false.
Proof.
  unfold str_of_int, NilZero.string_of_int, NilZero.string_of_uint.
  destruct (Z.to_int z) as [u|u]; destruct u; cbn;
    auto using string_of_uint_no_nl.
Qed.

Lemma split_cons_other (sep c : ascii) (s : string) :
  Ascii.eqb c sep = false ->
  split sep (String c s)
  = match split sep s with
    | x :: rest => String c x :: rest
    | [] => [String c EmptyString]
    end.
Proof. intros H. cbn [split]. now rewrite H. Qed.

Lemma split_app_no_sep (sep : ascii) (a s : string) :
  mem_char sep a = false ->
  split sep (a +:+ s)
  = match split sep s with
    | x :: rest => (a +:+ x) :: rest
    | [] => [a]
    end.
Proof.
  intros H. induction a as [|c a IH].
  - change (EmptyString +:+ s) with s.
    destruct (split sep s) eqn:E; [|reflexivity].
    now destruct s as [|c s]; [|cbn in E; destruct (Ascii.eqb c sep), (split sep s)].
  - cbn [mem_char] in H. apply orb_false_iff in H as [Hc Ha].
    rewrite str_app_cons, split_cons_other.
    + rewrite (IH Ha). now destruct (split sep s).
    + now rewrite Ascii.eqb_sym.
Qed.

Lemma split_cons_sep (sep : ascii) (s : string) :
  split sep (String sep s) = EmptyString :: split sep s.
Proof. cbn [split]. now rewrite Ascii.eqb_refl. Qed.

Lemma split_no_sep (sep : ascii) (a : string) :
  mem_char sep a = false -> split sep a = [a].
Proof.
  intros H. rewrite <- (str_app_nil_r a) at 1.
  rewrite split_app_no_sep by assumption. cbn [split].
  now rewrite str_app_nil_r.
Qed.

Ltac fmt_step :=
  cbn [format_from Ascii.eqb Bool.eqb andb mbind result_bind];
  match goal with
  | |- context [defaultdict_getitem ?k ?d] =>
      let k' := eval vm_compute in k in
      change (defaultdict_getitem k d) with (defaultdict_getitem k' d)
  end;
  rewrite defaultdict_getitem_eq.

(** C9: for every state of the totals the dump is rendered without an
    exception and has exactly the four lines TotalDefects,
    MandatoryDefects, RequiredDefects and AdvisoryDefects; a key that the
    accumulator does not hold is rendered as 0. *)
Theorem totals_dump_four_lines (d : gmap string Z) :
  exists text d',
    format_map TOTALS_FORMAT d = Ok (text, d')
    /\ lines text
       = ["TotalDefects:     " +:+ str_of_int (default 0 (d !! "total"));
          "MandatoryDefects: " +:+ str_of_int (default 0 (d !! "mandatory"));
          "RequiredDefects:  " +:+ str_of_int (default 0 (d !! "required"));
          "AdvisoryDefects:  " +:+ str_of_int (default 0 (d !! "advisory"))].
Proof.
  unfold format_map.
  let t := eval vm_compute in TOTALS_FORMAT in change TOTALS_FORMAT with t.
  do 4 fmt_step.
  cbn [format_from Ascii.eqb Bool.eqb andb mbind result_bind].
  eexists _, _. split; [reflexivity|].
  rewrite !lookup_insert_ne by discriminate.
  pose proof (str_of_int_no_nl (default 0 (d !! "total"))) as H1.
  pose proof (str_of_int_no_nl (default 0 (d !! "mandatory"))) as H2.
  pose proof (str_of_int_no_nl (default 0 (d !! "required"))) as H3.
  pose proof (str_of_int_no_nl (default 0 (d !! "advisory"))) as H4.
  revert H1 H2 H3 H4.
  generalize (str_of_int (default 0 (d !! "total"))).
  generalize (str_of_int (default 0 (d !! "mandatory"))).
  generalize (str_of_int (default 0 (d !! "required"))).
  generalize (str_of_int (default 0 (d !! "advisory"))).
  intros a4 a3 a2 a1 H1 H2 H3 H4. unfold lines.
  repeat first
    [ rewrite split_cons_sep
    | rewrite split_cons_other by reflexivity
    | rewrite split_app_no_sep by assumption ].
  cbn [split]. rewrite !str_app_nil_r. reflexivity.
Qed.

Example totals_dump_empty :
  fst <$> format_map TOTALS_FORMAT ∅
  = Ok ("TotalDefects:     0" +:+ nl +:+ "MandatoryDefects: 0" +:+ nl
        +:+ "RequiredDefects:  0" +:+ nl +:+ "AdvisoryDefects:  0").
Proof. vm_compute. reflexivity. Qed.

(** ** Single use of the record sequence *)

Lemma v1_occurrence_end (groups : list json) (g o : json) (occs : list json)
    (t t' : gmap string Z) (out : outcome) (g' : generator) :
  v1_occurrence groups g o occs t = (out, g', t') ->
  is_yield out = false -> g' = Finished.
Proof.
  unfold v1_occurrence.
  destruct (c ← getitem g "cid"; _new_issue c o); intros [= <- <- <-];
    [discriminate | reflexivity].
Qed.

Lemma v1_groups_end (sa : bool) (occ : option json) (groups : list json)
    (t t' : gmap string Z) (out : outcome) (g' : generator) :
  v1_groups sa occ groups t = (out, g', t') ->
  is_yield out = false -> g' = Finished.
Proof.
  revert t. induction groups as [|g groups IH]; intros t; cbn [v1_groups].
  - now intros [= <- <- <-].
  - destruct (filter_groups_v1 sa g) as [[|]|e]; [| apply IH | now intros [= <- <- <-]].
    destruct (o ← local "occurrence" occ; name ← getitem o "checkerName";
              _classify_checker name) as [cls|e]; [|now intros [= <- <- <-]].
    destruct (getitem g "occurrences" ≫= py_iter) as [[|o occs]|e].
    + apply IH.
    + apply v1_occurrence_end.
    + now intros [= <- <- <-].
Qed.

Lemma v7_event_end (groups : list json) (g ev : json) (events : list json)
    (t t' : gmap string Z) (out : outcome) (g' : generator) :
  v7_event groups g ev events t = (out, g', t') ->
  is_yield out = false -> g' = Finished.
Proof.
  unfold v7_event.
  destruct (c ← get g "cid"; name ← getitem g "checkerName";
            _new_issue_v7 c name ev); intros [= <- <- <-];
    [discriminate | reflexivity].
Qed.

Lemma v7_groups_end (groups : list json)
    (t t' : gmap string Z) (out : outcome) (g' : generator) :
  v7_groups groups t = (out, g', t') ->
  is_yield out = false -> g' = Finished.
Proof.
  revert t. induction groups as [|g groups IH]; intros t; cbn [v7_groups].
  - now intros [= <- <- <-].
  - destruct (filter_groups_v7 g) as [[|]|e]; [| apply IH | now intros [= <- <- <-]].
    destruct (name ← getitem g "checkerName"; _classify_checker name)
      as [cls|e]; [|now intros [= <- <- <-]].
    destruct (getitem g "events" ≫= py_iter) as [[|ev events]|e].
    + apply IH.
    + apply v7_event_end.
    + now intros [= <- <- <-].
Qed.

(** A generator that does not yield has finished. *)
Lemma next_end (sa : bool) (g g' : generator) (t t' : gmap string Z)
    (out : outcome) :
  next sa g t = (out, g', t') -> is_yield out = false -> g' = Finished.
Proof.
  destruct g as [report|groups grp occs occ|report|groups grp events|];
    cbn [next].
  - destruct (getitem report "issueInfo" ≫= py_iter);
      [apply v1_groups_end | now intros [= <- <- <-]].
  - destruct occs; [apply v1_groups_end | apply v1_occurrence_end].
  - destruct (getitem report "issues" ≫= py_iter);
      [apply v7_groups_end | now intros [= <- <- <-]].
  - destruct events; [apply v7_groups_end | apply v7_event_end].
  - now intros [= <- <- <-].
Qed.

Lemma groups_pending_cons (key : string) (g : json) (groups : list json) :
  groups_pending key (g :: groups)
  = (inner_length key g + groups_pending key groups)%nat.
Proof. reflexivity. Qed.

Lemma v1_groups_pending (sa : bool) (occ : option json) (groups : list json)
    (t t' : gmap string Z) (i : issue_dict) (g' : generator) :
  v1_groups sa occ groups t = (Yield i, g', t') ->
  (pending g' < groups_pending "occurrences" groups)%nat.
Proof.
  revert t. induction groups as [|g groups IH]; intros t; cbn [v1_groups].
  - discriminate.
  - rewrite groups_pending_cons.
    destruct (filter_groups_v1 sa g) as [[|]|e]; [| |discriminate].
    2: { intros H. apply IH in H. lia. }
    destruct (o ← local "occurrence" occ; name ← getitem o "checkerName";
              _classify_checker name) as [cls|e]; [|discriminate].
    unfold inner_length.
    destruct (getitem g "occurrences" ≫= py_iter) as [[|o occs]|e];
      [| |discriminate].
    + intros H. apply IH in H. cbn [length]. lia.
    + unfold v1_occurrence.
      destruct (c ← getitem g "cid"; _new_issue c o); [|discriminate].
      intros [= _ <- _]. cbn [pending length]. lia.
Qed.

Lemma v7_groups_pending (groups : list json)
    (t t' : gmap string Z) (i : issue_dict) (g' : generator) :
  v7_groups groups t = (Yield i, g', t') ->
  (pending g' < groups_pending "events" groups)%nat.
Proof.
  revert t. induction groups as [|g groups IH]; intros t; cbn [v7_groups].
  - discriminate.
  - rewrite groups_pending_cons.
    destruct (filter_groups_v7 g) as [[|]|e]; [| |discriminate].
    2: { intros H. apply IH in H. lia. }
    destruct (name ← getitem g "checkerName"; _classify_checker name)
      as [cls|e]; [|discriminate].
    unfold inner_length.
    destruct (getitem g "events" ≫= py_iter) as [[|ev events]|e];
      [| |discriminate].
    + intros H. apply IH in H. cbn [length]. lia.
    + unfold v7_event.
      destruct (c ← get g "cid"; name ← getitem g "checkerName";
                _new_issue_v7 c name ev); [|discriminate].
      intros [= _ <- _]. cbn [pending length]. lia.
Qed.

(** Every record yielded brings the generator closer to its end. *)
Lemma next_pending (sa : bool) (g g' : generator) (t t' : gmap string Z)
    (i : issue_dict) :
  next sa g t = (Yield i, g', t') -> (pending g' < pending g)%nat.
Proof.
  destruct g as [report|groups grp occs occ|report|groups grp events|];
    cbn [next pending]; unfold report_pending.
  - destruct (getitem report "issueInfo" ≫= py_iter);
      [apply v1_groups_pending | discriminate].
  - destruct occs as [|o occs].
    + intros H. apply v1_groups_pending in H. cbn [length]. lia.
    + unfold v1_occurrence.
      destruct (c ← getitem grp "cid"; _new_issue c o); [|discriminate].
      intros [= _ <- _]. cbn [pending length]. lia.
  - destruct (getitem report "issues" ≫= py_iter);
      [apply v7_groups_pending | discriminate].
  - destruct events as [|ev events].
    + intros H. apply v7_groups_pending in H. cbn [length]. lia.
    + unfold v7_event.
      destruct (c ← get grp "cid"; name ← getitem grp "checkerName";
                _new_issue_v7 c name ev); [|discriminate].
      intros [= _ <- _]. cbn [pending length]. lia.
  - discriminate.
Qed.

Lemma yield_from_gen (self self' : Issues) (g : generator) (out : outcome)
    (st' : iter_state) :
  gen self = Some g ->
  yield_from self = (out, st', self') ->
  exists g' t', next (show_all self) g (totals self) = (out, g', t')
    /\ gen self' = Some g' /\ path self' = path self
    /\ st' = (if is_yield out then It_from else It_done).
Proof.
  intros Hg. unfold yield_from. rewrite Hg.
  destruct (next (show_all self) g (totals self)) as [[o g'] t'].
  destruct o; intros [= <- <- <-]; now exists g', t'.
Qed.

Lemma iter_next_yield (fs : filesystem) (st st' : iter_state)
    (self self' : Issues) (i : issue_dict) :
  iter_next fs st self = (Yield i, st', self') ->
  st' = It_from
  /\ exists g', gen self' = Some g' /\ (pending g' < bound fs self)%nat.
Proof.
  unfold bound. destruct st; cbn [iter_next]; [| |discriminate].
  - destruct (gen self) as [g|] eqn:Hg.
    + intros H. destruct (yield_from_gen _ _ g _ _ Hg H)
        as (g' & t' & Hn & Hg' & _ & ->).
      split; [reflexivity|]. exists g'. split; [assumption|].
      eapply next_pending, Hn.
    + destruct (_gen fs self) as [g|e]; [|discriminate].
      intros H.
      eapply yield_from_gen in H as (g' & t' & Hn & Hg' & _ & ->);
        [|reflexivity].
      split; [reflexivity|]. exists g'. split; [assumption|].
      eapply next_pending, Hn.
  - destruct (gen self) as [g|] eqn:Hg.
    + intros H. destruct (yield_from_gen _ _ g _ _ Hg H)
        as (g' & t' & Hn & Hg' & _ & ->).
      split; [reflexivity|]. exists g'. split; [assumption|].
      eapply next_pending, Hn.
    + unfold yield_from. rewrite Hg. discriminate.
Qed.

Lemma gen_path (fs : filesystem) (self self' : Issues) :
  path self' = path self -> _gen fs self' = _gen fs self.
Proof. unfold _gen. now intros ->. Qed.

Lemma iter_next_end (fs : filesystem) (st st' : iter_state)
    (self self' : Issues) (out : outcome) :
  iter_next fs st self = (out, st', self') ->
  is_yield out = false ->
  st = It_start \/ (st = It_from /\ gen self <> None) ->
  exhausted fs self'.
Proof.
  intros H Hout Hst.
  assert (Hy : forall s g, gen s = Some g -> yield_from s = (out, st', self')
                           -> exhausted fs self').
  { intros s g Hg Hs.
    destruct (yield_from_gen _ _ g _ _ Hg Hs) as (g' & t' & Hn & Hg' & _).
    left. rewrite Hg'. f_equal. eapply next_end; eassumption. }
  destruct Hst as [->|[-> Hg]]; cbn [iter_next] in H.
  - destruct (gen self) as [g|] eqn:Hg; [now apply (Hy self g)|].
    destruct (_gen fs self) as [g|e] eqn:He.
    + eapply Hy; [|exact H]. reflexivity.
    + injection H as <- <- <-. right. eauto.
  - destruct (gen self) as [g|] eqn:Hg'; [now apply (Hy self g)|congruence].
Qed.

(** A loop that has run to the end leaves the object used up. *)
Lemma for_loop_exhausted (fs : filesystem) (fuel : nat) (st : iter_state)
    (self self' : Issues) (recs : list issue_dict) (e : option exn) :
  for_loop fs fuel st self = Some (recs, e, self') ->
  st = It_start \/ (st = It_from /\ gen self <> None) ->
  exhausted fs self'.
Proof.
  revert st self recs e.
  induction fuel as [|fuel IH]; intros st self recs e;
    cbn [for_loop]; [discriminate|].
  destruct (iter_next fs st self) as [[out st1] self1] eqn:E.
  destruct out as [i| |x].
  - destruct (for_loop fs fuel st1 self1) as [[[rest e1] s1]|] eqn:F;
      [|discriminate].
    intros [= _ _ <-] _.
    destruct (iter_next_yield _ _ _ _ _ _ E) as (-> & g' & Hg' & _).
    apply (IH _ _ _ _ F). right. split; [reflexivity | congruence].
  - intros [= _ _ <-] Hst. now apply (iter_next_end _ _ _ _ _ _ E).
  - intros [= _ _ <-] Hst. now apply (iter_next_end _ _ _ _ _ _ E).
Qed.

(** Iterating a used-up object gives no record and leaves it as it is. *)
Lemma exhausted_iterate (fs : filesystem) (self : Issues) (fuel : nat) :
  exhausted fs self ->
  exists e, iterate fs (S fuel) self = Some ([], e, self).
Proof.
  intros [Hg|[Hg [e He]]]; unfold iterate; cbn [for_loop iter_next].
  - rewrite Hg. unfold yield_from. rewrite Hg. cbn [next].
    exists None. destruct self; cbn in *. now subst.
  - rewrite Hg, He. now exists (Some e).
Qed.

(** The loop ends: the fuel it needs is bounded by the records left. *)
Lemma for_loop_total (fs : filesystem) (fuel : nat) (st : iter_state)
    (self : Issues) :
  (bound fs self < fuel)%nat ->
  exists r, for_loop fs fuel st self = Some r.
Proof.
  revert st self. induction fuel as [|fuel IH]; intros st self Hb; [lia|].
  cbn [for_loop].
  destruct (iter_next fs st self) as [[out st1] self1] eqn:E.
  destruct out as [i| |x]; [|eauto..].
  destruct (iter_next_yield _ _ _ _ _ _ E) as (_ & g' & Hg' & Hp).
  destruct (IH st1 self1) as [[[rest e1] s1] ->]; [|eauto].
  unfold bound at 1. rewrite Hg'. lia.
Qed.

(** C10: iterating an [Issues] object to the end always terminates, and
    after it has, every further iteration of the same object yields no
    record and leaves the object as it is: [self.gen] is created once and
    a finished generator is not restarted. *)
Theorem iterate_single_use (fs : filesystem) (self : Issues) :
  (exists recs e self',
     iterate fs (S (bound fs self)) self = Some (recs, e, self'))
  /\ (forall (fuel : nat) (recs : list issue_dict) (e : option exn)
        (self' : Issues),
        iterate fs fuel self = Some (recs, e, self') ->
        forall fuel', exists e',
          iterate fs (S fuel') self' = Some ([], e', self')).
Proof.
  split.
  - destruct (for_loop_total fs (S (bound fs self)) It_start self)
      as [[[recs e] self'] H]; [lia|]. now exists recs, e, self'.
  - intros fuel recs e self' H fuel'. apply exhausted_iterate.
    eapply for_loop_exhausted; [exact H | now left].
Qed.

Lemma iterate_single_use_witness :
  exists e',
    iterate (on_disk (one_group_report "checkerName" "plat/a.c")) 1
      {| path := "report.json"; show_all := false; iterated := false;
         totals := {[ "mandatory" := 1; "total" := 1 ]};
         gen := Some Finished |}
    = Some ([], e',
            {| path := "report.json"; show_all := false; iterated := false;
               totals := {[ "mandatory" := 1; "total" := 1 ]};
               gen := Some Finished |}).
Proof.
  apply (proj2 (iterate_single_use
                  (on_disk (one_group_report "checkerName" "plat/a.c"))
                  (__init__ "report.json" false))
           3%nat
           [ {| cid := JInt 101; file := JStr "plat/a.c"; line := JInt 2;
                checker := JStr "MISRA C-2012 Rule 9.1";
                classification := "mandatory";
                description := JStr "first" |};
             {| cid := JInt 101; file := JStr "plat/a.c"; line := JInt 10;
                checker := JStr "MISRA C-2012 Rule 9.1";
                classification := "mandatory";
                description := JStr "second" |} ]
           None).
  vm_compute. reflexivity.
Defined.

(** * Further properties of the script *)

(** ** The classes *)

Lemma first_class_directive (number : string) :
  default "unknown"
    (first_class number
       [("required", _dir_required); ("advisory", _dir_advisory)])
  = if mem_str number _dir_required then "required"
    else if mem_str number _dir_advisory then "advisory" else "unknown".
Proof.
  unfold first_class. cbn [List.find snd fst].
  destruct (mem_str number _dir_required); [reflexivity|].
  destruct (mem_str number _dir_advisory); reflexivity.
Qed.

Lemma first_class_rule (number : string) :
  default "unknown"
    (first_class number
       [("mandatory", _rule_mandatory); ("required", _rule_required);
        ("advisory", _rule_advisory)])
  = if mem_str number _rule_mandatory then "mandatory"
    else if mem_str number _rule_required then "required"
    else if mem_str number _rule_advisory then "advisory" else "unknown".
Proof.
  unfold first_class. cbn [List.find snd fst].
  destruct (mem_str number _rule_mandatory); [reflexivity|].
  destruct (mem_str number _rule_required); [reflexivity|].
  destruct (mem_str number _rule_advisory); reflexivity.
Qed.

Lemma classify_in_classes (c : json) (cls : string) :
  _classify_checker c = Ok cls -> In cls classes.
Proof.
  assert (Hd : forall b1 b2 : bool,
             In (if b1 then "required"
                 else if b2 then "advisory" else "unknown") classes)
    by (intros [] []; cbn; auto 10).
  assert (Hr : forall b1 b2 b3 : bool,
             In (if b1 then "mandatory" else if b2 then "required"
                 else if b3 then "advisory" else "unknown") classes)
    by (intros [] [] []; cbn; auto 10).
  unfold _classify_checker.
  destruct c as [| | | |s| |]; try discriminate.
  destruct (_checker_re_search s) as [[kind number]|];
    [|intros [= <-]; exact (Hd false false)].
  rewrite lookup_kind.
  destruct (String.eqb kind "Directive").
  - rewrite first_class_directive. intros [= <-]. apply Hd.
  - destruct (String.eqb kind "Rule"); [|discriminate].
    rewrite first_class_rule. intros [= <-]. apply Hr.
Qed.

(** X1: whenever [_classify_checker] returns, on any value, what it
    returns is one of "mandatory", "required", "advisory" and "unknown";
    every record that an adapter builds carries one of the four. *)
Theorem classification_is_a_class :
  (forall (c : json) (cls : string),
     _classify_checker c = Ok cls -> In cls classes)
  /\ (forall (c o : json) (i : issue_dict),
        _new_issue c o = Ok i -> In (classification i) classes)
  /\ (forall (c name ev : json) (i : issue_dict),
        _new_issue_v7 c name ev = Ok i -> In (classification i) classes).
Proof.
  split; [exact classify_in_classes|]. split.
  - intros c o i. unfold _new_issue.
    destruct (getitem o "checker") as [ch|]; [|discriminate].
    cbn [mbind result_bind].
    destruct (_classify_checker ch) as [cl|] eqn:E; [|discriminate].
    cbn [mbind result_bind].
    destruct (getitem o "file") as [f|]; [|discriminate].
    cbn [mbind result_bind].
    destruct (as_str "lstrip" f) as [s|]; [|discriminate].
    cbn [mbind result_bind].
    destruct (getitem o "mainEventLineNumber") as [ln|]; [|discriminate].
    cbn [mbind result_bind].
    destruct (getitem o "mainEventDescription") as [d|]; [|discriminate].
    cbn [mbind result_bind].
    intros [= <-]. cbn [classification]. now apply (classify_in_classes ch).
  - intros c name ev i. unfold _new_issue_v7.
    destruct (getitem ev "strippedFilePathname") as [f|]; [|discriminate].
    cbn [mbind result_bind].
    destruct (getitem ev "lineNumber") as [ln|]; [|discriminate].
    cbn [mbind result_bind].
    destruct (_classify_checker name) as [cl|] eqn:E; [|discriminate].
    cbn [mbind result_bind].
    destruct (getitem ev "eventDescription") as [d|]; [|discriminate].
    cbn [mbind result_bind].
    intros [= <-]. cbn [classification].
    now apply (classify_in_classes name).
Qed.

Lemma classification_is_a_class_witness : In "required" classes.
Proof.
  apply (proj1 classification_is_a_class
           (JStr "MISRA C-2012 Directive 4.10") "required").
  reflexivity.
Defined.

(** ** The legacy stream as a whole *)

Lemma v1_groups_first_kept (sa : bool) (before after : list json)
    (g : json) (t : gmap string Z) :
  Forall (fun g' => filter_groups_v1 sa g' = Ok false) before ->
  filter_groups_v1 sa g = Ok true ->
  v1_groups sa None (before ++ g :: after) t
  = (Raised (UnboundLocalError "occurrence"), Finished, t).
Proof.
  intros Hbefore Hkept.
  induction Hbefore as [|g' before Hg' _ IH]; cbn [app v1_groups].
  - now rewrite Hkept.
  - now rewrite Hg'.
Qed.

(** X2: once [_gen] has selected the legacy adapter, iterating the object
    gives no record at all and leaves the totals as they were, whatever
    the report holds; the generator is finished afterwards.  When the first
    group the filter does not reject is kept, the loop ends with
    UnboundLocalError. *)
Theorem legacy_stream_is_empty (fs : filesystem) (self : Issues)
    (report : json) (fuel : nat) :
  gen self = None ->
  _gen fs self = Ok (V1_start report) ->
  (exists e,
     iterate fs (S fuel) self
     = Some ([], e,
             {| path := path self; show_all := show_all self;
                iterated := iterated self; totals := totals self;
                gen := Some Finished |}))
  /\ (forall (before after : list json) (g : json),
        getitem report "issueInfo" = Ok (JArr (before ++ g :: after)) ->
        Forall (fun g' => filter_groups_v1 (show_all self) g' = Ok false)
          before ->
        filter_groups_v1 (show_all self) g = Ok true ->
        iterate fs (S fuel) self
        = Some ([], Some (UnboundLocalError "occurrence"),
                {| path := path self; show_all := show_all self;
                   iterated := iterated self; totals := totals self;
                   gen := Some Finished |})).
Proof.
  intros Hg Hgen. unfold iterate. cbn [for_loop iter_next].
  rewrite Hg, Hgen. unfold yield_from. cbn [gen show_all totals path iterated].
  split.
  - destruct (v1_start_never_yields (show_all self) report (totals self))
      as (out & -> & Hout).
    destruct out as [i| |e]; [discriminate | now exists None | now exists (Some e)].
  - intros before after g Hrep Hbefore Hkept. cbn [next].
    rewrite Hrep. cbn [mbind result_bind py_iter].
    now rewrite (v1_groups_first_kept _ before after g _ Hbefore Hkept).
Qed.

Lemma legacy_stream_is_empty_witness :
  iterate (on_disk two_group_report) 1 (__init__ "report.json" true)
  = Some ([], Some (UnboundLocalError "occurrence"),
          {| path := "report.json"; show_all := true; iterated := false;
             totals := ∅; gen := Some Finished |}).
Proof.
  apply (proj2 (legacy_stream_is_empty (on_disk two_group_report)
                  (__init__ "report.json" true) two_group_report 0
                  eq_refl eq_refl)
           []
           [legacy_group (JInt 102) (JStr "Undecided") (JBool false)
              [legacy_occurrence (JStr "MISRA C-2012 Rule 2.4")
                 (JStr "/plat/b.c") (JInt 7) (JStr "third")]]
           (legacy_group (JInt 101) (JStr "Undecided") (JBool false)
              [legacy_occurrence (JStr "MISRA C-2012 Rule 9.1")
                 (JStr "/plat/a.c") (JInt 2) (JStr "first");
               legacy_occurrence (JStr "MISRA C-2012 Rule 9.1")
                 (JStr "/plat/a.c") (JInt 10) (JStr "second")])).
  - reflexivity.
  - constructor.
  - reflexivity.
Defined.

(** ** What the filters let through *)

(** X3: the current filter finds the checker only under "checker_name".
    A group that has no such key is never dropped for its rule, whatever
    its other keys hold: with a string path the decision is the directory
    test alone. *)
Theorem current_filter_without_checker_name (items : list (string * json))
    (f : string) :
  assoc "checker_name" items = None ->
  assoc "strippedMainEventFilePathname" items = Some (JStr f) ->
  filter_groups_v7 (JObj items)
  = Ok (negb (existsb (startswith f) IGNORED_DIRS)).
Proof.
  intros Hn Hf. unfold filter_groups_v7, get, get_default, getitem.
  rewrite Hn, Hf. cbn [from_option mbind result_bind in_strs as_str].
  change (in_strs JNull _rule_exclusions) with false. cbn iota.
  rewrite in_skip_dirs_ok. cbn [mbind result_bind].
  now destruct (existsb (startswith f) IGNORED_DIRS).
Qed.

Lemma current_filter_without_checker_name_witness :
  filter_groups_v7
    (current_group "checkerName" (JStr "MISRA C-2012 Rule 2.4")
       (JStr "plat/a.c") (JInt 1) [])
  = Ok (negb (existsb (startswith "plat/a.c") IGNORED_DIRS)).
Proof.
  apply (current_filter_without_checker_name
           [("checkerName", JStr "MISRA C-2012 Rule 2.4");
            ("strippedMainEventFilePathname", JStr "plat/a.c");
            ("cid", JInt 1); ("events", JArr [])] "plat/a.c");
    reflexivity.
Defined.

Lemma startswith_app (d s : string) : startswith (d +:+ s) d = true.
Proof.
  unfold startswith. induction d as [|c d IH]; [now destruct s|].
  rewrite str_app_cons. cbn [String.prefix].
  now destruct (Ascii.ascii_dec c c).
Qed.

Lemma lstrip_slashes (n : nat) (s : string) :
  lstrip "/" (slashes n +:+ s) = lstrip "/" s.
Proof.
  induction n as [|n IH]; [reflexivity|].
  cbn [slashes]. now rewrite str_app_cons.
Qed.

Lemma lstrip_ignored_dir (d s : string) :
  In d IGNORED_DIRS -> lstrip "/" (d +:+ s) = d +:+ s.
Proof.
  unfold IGNORED_DIRS. cbn [In].
  intros [<-|[<-|[<-|[<-|[<-|[]]]]]]; reflexivity.
Qed.

(** X4: the directory test of the legacy filter is a test on characters,
    not on path segments: a group whose first occurrence lies in a file
    whose name, after any number of leading separators, begins with the
    text of an ignored directory is dropped, whatever follows that text
    and whatever the other fields and [show_all] are. *)
Theorem legacy_ignored_prefix_dropped (sa : bool) (c action present : json)
    (name ln dsc : json) (rest : list json) (n : nat) (d suffix : string) :
  In d IGNORED_DIRS ->
  filter_groups_v1 sa
    (legacy_group c action present
       (legacy_occurrence name (JStr (slashes n +:+ d +:+ suffix)) ln dsc
        :: rest))
  = Ok false.
Proof.
  intros Hd. rewrite filter_groups_v1_legacy.
  destruct (eq_str action "Ignore"); [reflexivity|].
  destruct (in_strs name _rule_exclusions); [reflexivity|].
  cbn [as_str mbind result_bind].
  rewrite lstrip_slashes, (lstrip_ignored_dir d suffix Hd), in_skip_dirs_ok.
  cbn [mbind result_bind].
  assert (H : existsb (startswith (d +:+ suffix)) IGNORED_DIRS = true).
  { apply existsb_exists. exists d. auto using startswith_app. }
  now rewrite H.
Qed.

Lemma legacy_ignored_prefix_dropped_witness :
  filter_groups_v1 true
    (legacy_group (JInt 1) (JStr "Undecided") (JBool false)
       [legacy_occurrence (JStr "MISRA C-2012 Rule 9.1")
          (JStr "//lib/libfdt2/fdt.c") (JInt 2) (JStr "first")])
  = Ok false.
Proof.
  apply (legacy_ignored_prefix_dropped true (JInt 1) (JStr "Undecided")
           (JBool false) (JStr "MISRA C-2012 Rule 9.1") (JInt 2)
           (JStr "first") [] 2 "lib/libfdt" "2/fdt.c").
  cbn. auto.
Defined.

(** ** The text of a key *)

Lemma str_length_app (a b : string) :
  String.length (a +:+ b) = (String.length a + String.length b)%nat.
Proof.
  induction a as [|c a IH]; [reflexivity|].
  rewrite str_app_cons. cbn [String.length]. now rewrite IH.
Qed.

Lemma zeros_length (n : nat) : String.length (zeros n) = n.
Proof. induction n as [|n IH]; cbn; congruence. Qed.

(** [zfill] never shortens: the text it returns is as long as the longer
    of the width and the text it was given. *)
Lemma zfill_length (width : nat) (s : string) :
  String.length (zfill width s) = Nat.max width (String.length s).
Proof.
  unfold zfill. destruct (Nat.leb_spec width (String.length s)) as [H|H].
  - lia.
  - destruct s as [|c s].
    + rewrite zeros_length. cbn [String.length]. lia.
    + cbn [String.length] in *.
      destruct (Ascii.eqb c "+" || Ascii.eqb c "-").
      * cbn [String.length]. rewrite str_length_app, zeros_length. lia.
      * rewrite str_length_app, zeros_length. cbn [String.length]. lia.
Qed.

(** X5: a key is never cut: its length is that of the file, of the line,
    of the checker and of the id together, where the line and the id
    count for five characters when their text is shorter and for their
    full text when it is longer. *)
Theorem make_key_length (repr_float : spec_float -> string)
    (repr_str : string -> string) (i : issue_dict) (f c k : string) :
  file i = JStr f -> checker i = JStr c ->
  make_key repr_float repr_str i = Ok k ->
  String.length k
  = (String.length f
     + Nat.max 5 (String.length (py_str repr_float repr_str (line i)))
     + String.length c
     + Nat.max 5 (String.length (py_str repr_float repr_str (cid i))))%nat.
Proof.
  intros Hf Hc. rewrite (make_key_concat _ _ i f c Hf Hc). intros [= <-].
  rewrite !str_length_app, !zfill_length. lia.
Qed.

Lemma make_key_length_witness :
  String.length "plat/a.c123456MISRA C-2012 Rule 9.100007"
  = (String.length "plat/a.c" + Nat.max 5 (String.length "123456")
     + String.length "MISRA C-2012 Rule 9.1"
     + Nat.max 5 (String.length "7"))%nat.
Proof.
  apply (make_key_length (fun _ => "") (fun s => s)
           {| cid := JInt 7; file := JStr "plat/a.c"; line := JInt 123456;
              checker := JStr "MISRA C-2012 Rule 9.1";
              classification := "mandatory"; description := JStr "first" |}
           "plat/a.c" "MISRA C-2012 Rule 9.1"); reflexivity.
Defined.

Lemma str_lt_trans (a b c : string) :
  str_lt a b = true -> str_lt b c = true -> str_lt a c = true.
Proof.
  unfold str_lt, String.ltb. intros Hab Hbc.
  destruct (String.compare a b) eqn:E1; try discriminate.
  destruct (String.compare b c) eqn:E2; try discriminate.
  change (OrderedTypeEx.String_as_OT.cmp a b = Lt) in E1.
  change (OrderedTypeEx.String_as_OT.cmp b c = Lt) in E2.
  apply OrderedTypeEx.String_as_OT.cmp_lt in E1, E2.
  pose proof (OrderedTypeEx.String_as_OT.lt_trans _ _ _ E1 E2) as H.
  apply OrderedTypeEx.String_as_OT.cmp_lt in H.
  unfold OrderedTypeEx.String_as_OT.cmp in H. now rewrite H.
Qed.

(** Two texts of one length that differ keep their order under any
    continuation. *)
Lemma str_lt_same_length (x y r1 r2 : string) :
  String.length x = String.length y -> str_lt x y = true ->
  str_lt (x +:+ r1) (y +:+ r2) = true.
Proof.
  unfold str_lt, String.ltb. revert y.
  induction x as [|a x IH]; intros [|b y]; try discriminate.
  intros [= Hlen]. rewrite !str_app_cons. cbn [String.compare].
  destruct (Ascii.compare a b); [apply IH; assumption | reflexivity | discriminate].
Qed.

Lemma in_lines_from (n : nat) (z0 z : Z) :
  z0 <= z < z0 + Z.of_nat n -> In z (lines_from n z0).
Proof.
  revert z0. induction n as [|n IH]; intros z0 Hz; [lia|].
  cbn [lines_from In]. destruct (Z.eq_dec z0 z); [now left|].
  right. apply IH. lia.
Qed.

(** The texts of two successive lines below 100000 have five characters
    and are in order. *)
Lemma line_text_step :
  forallb (fun z => Nat.eqb (String.length (line_text z)) 5
                    && Nat.eqb (String.length (line_text (z + 1))) 5
                    && str_lt (line_text z) (line_text (z + 1)))
    (lines_from (Z.to_nat 99999) 0) = true.
Proof. vm_compute. reflexivity. Qed.

Lemma line_text_succ (z : Z) :
  0 <= z < 99999 ->
  String.length (line_text z) = 5%nat
  /\ String.length (line_text (z + 1)) = 5%nat
  /\ str_lt (line_text z) (line_text (z + 1)) = true.
Proof.
  intros Hz. pose proof line_text_step as H.
  rewrite forallb_forall in H.
  assert (Hin : In z (lines_from (Z.to_nat 99999) 0))
    by (apply in_lines_from; lia).
  specialize (H z Hin).
  rewrite !andb_true_iff, !Nat.eqb_eq in H. tauto.
Qed.

Lemma line_text_lt (a b : Z) :
  0 <= a -> a < b -> b < 100000 ->
  String.length (line_text a) = 5%nat
  /\ String.length (line_text b) = 5%nat
  /\ str_lt (line_text a) (line_text b) = true.
Proof.
  intros Ha Hab Hb. replace b with (a + 1 + Z.of_nat (Z.to_nat (b - a - 1))) in * by lia.
  induction (Z.to_nat (b - a - 1)) as [|n IH].
  - rewrite Z.add_0_r. apply line_text_succ. lia.
  - destruct IH as (La & Lb & Hlt); [lia..|].
    destruct (line_text_succ (a + 1 + Z.of_nat n)) as (_ & Lc & Hs); [lia|].
    replace (a + 1 + Z.of_nat (S n)) with (a + 1 + Z.of_nat n + 1) by lia.
    eauto using str_lt_trans.
Qed.

(** X6: the key orders the lines of one file by number as long as they
    have at most five digits: of two records of one file at lines
    [0 <= a < b < 100000] the one at line [a] has the strictly smaller
    key, whatever the checkers and the ids are. *)
Theorem make_key_orders_lines (repr_float : spec_float -> string)
    (repr_str : string -> string) (i1 i2 : issue_dict) (f c1 c2 : string)
    (a b : Z) :
  file i1 = JStr f -> file i2 = JStr f ->
  checker i1 = JStr c1 -> checker i2 = JStr c2 ->
  line i1 = JInt a -> line i2 = JInt b ->
  0 <= a -> a < b -> b < 100000 ->
  exists k1 k2,
    make_key repr_float repr_str i1 = Ok k1
    /\ make_key repr_float repr_str i2 = Ok k2
    /\ str_lt k1 k2 = true.
Proof.
  intros Hf1 Hf2 Hc1 Hc2 Hl1 Hl2 Ha Hab Hb.
  eexists _, _.
  split; [exact (make_key_concat _ _ i1 f c1 Hf1 Hc1)|].
  split; [exact (make_key_concat _ _ i2 f c2 Hf2 Hc2)|].
  rewrite Hl1, Hl2, str_lt_app. cbn [py_str py_repr].
  destruct (line_text_lt a b Ha Hab Hb) as (La & Lb & Hlt).
  apply str_lt_same_length; [|exact Hlt]. unfold line_text in *. congruence.
Qed.

Lemma make_key_orders_lines_witness :
  exists k1 k2,
    make_key (fun _ => "") (fun s => s)
      {| cid := JInt 7; file := JStr "plat/a.c"; line := JInt 99;
         checker := JStr "MISRA C-2012 Rule 9.1";
         classification := "mandatory"; description := JStr "first" |}
    = Ok k1
    /\ make_key (fun _ => "") (fun s => s)
         {| cid := JInt 3; file := JStr "plat/a.c"; line := JInt 1234;
            checker := JStr "MISRA C-2012 Directive 4.10";
            classification := "required"; description := JStr "second" |}
       = Ok k2
    /\ str_lt k1 k2 = true.
Proof.
  apply (make_key_orders_lines (fun _ => "") (fun s => s)
           {| cid := JInt 7; file := JStr "plat/a.c"; line := JInt 99;
              checker := JStr "MISRA C-2012 Rule 9.1";
              classification := "mandatory"; description := JStr "first" |}
           {| cid := JInt 3; file := JStr "plat/a.c"; line := JInt 1234;
              checker := JStr "MISRA C-2012 Directive 4.10";
              classification := "required"; description := JStr "second" |}
           "plat/a.c" "MISRA C-2012 Rule 9.1" "MISRA C-2012 Directive 4.10"
           99 1234 eq_refl eq_refl eq_refl eq_refl eq_refl eq_refl);
    lia.
Defined.

Lemma classify_ok_str (c : json) (cls : string) :
  _classify_checker c = Ok cls -> exists s, c = JStr s.
Proof. destruct c; try discriminate. eauto. Qed.

Lemma new_issue_checker (c o : json) (i : issue_dict) :
  _new_issue c o = Ok i ->
  exists name, getitem o "checker" = Ok (JStr name) /\ checker i = JStr name
               /\ cid i = c.
Proof.
  unfold _new_issue. intros H.
  destruct (getitem o "checker") as [ch|]; [|discriminate].
  cbn [mbind result_bind] in H.
  destruct (_classify_checker ch) as [cl|] eqn:E; [|discriminate].
  destruct (classify_ok_str ch cl E) as [name ->].
  cbn [mbind result_bind] in H.
  destruct (getitem o "file") as [f|]; [|discriminate].
  cbn [mbind result_bind] in H.
  destruct (as_str "lstrip" f) as [s|]; [|discriminate].
  cbn [mbind result_bind] in H.
  destruct (getitem o "mainEventLineNumber") as [ln|]; [|discriminate].
  cbn [mbind result_bind] in H.
  destruct (getitem o "mainEventDescription") as [d|]; [|discriminate].
  cbn [mbind result_bind] in H.
  injection H as <-. now exists name.
Qed.

Lemma new_issue_v7_checker (c name ev : json) (i : issue_dict) :
  _new_issue_v7 c name ev = Ok i -> exists s, checker i = JStr s.
Proof.
  unfold _new_issue_v7. intros H.
  destruct (getitem ev "strippedFilePathname") as [f|]; [|discriminate].
  cbn [mbind result_bind] in H.
  destruct (getitem ev "lineNumber") as [ln|]; [|discriminate].
  cbn [mbind result_bind] in H.
  destruct (_classify_checker name) as [cl|] eqn:E; [|discriminate].
  destruct (classify_ok_str name cl E) as [s ->].
  cbn [mbind result_bind] in H.
  destruct (getitem ev "eventDescription") as [d|]; [|discriminate].
  cbn [mbind result_bind] in H.
  injection H as <-. now exists s.
Qed.

(** X7: every record the legacy adapter builds has a sort key.  A record
    of the current adapter has one exactly when the event's
    strippedFilePathname is a string: the adapter accepts any value
    there, and [make_key] raises TypeError on the record if it is not. *)
Theorem adapters_and_make_key (repr_float : spec_float -> string)
    (repr_str : string -> string) :
  (forall (c o : json) (i : issue_dict),
     _new_issue c o = Ok i ->
     exists k, make_key repr_float repr_str i = Ok k)
  /\ (forall (c name ev : json) (i : issue_dict),
        _new_issue_v7 c name ev = Ok i ->
        match file i with
        | JStr _ => exists k, make_key repr_float repr_str i = Ok k
        | _ => make_key repr_float repr_str i = Raise TypeError
        end).
Proof.
  split.
  - intros c o i H.
    destruct (new_issue_file c o i H) as (s & _ & Hf).
    destruct (new_issue_checker c o i H) as (name & _ & Hc & _).
    eexists. exact (make_key_concat _ _ i _ _ Hf Hc).
  - intros c name ev i H.
    destruct (new_issue_v7_checker c name ev i H) as (s & Hc).
    destruct (file i) as [| | | |f| |] eqn:Hf;
      try (unfold make_key; now rewrite Hf).
    eexists. exact (make_key_concat _ _ i _ _ Hf Hc).
Qed.

Lemma adapters_and_make_key_witness :
  make_key (fun _ => "") (fun s => s)
    {| cid := JInt 101; file := JNull; line := JInt 2;
       checker := JStr "MISRA C-2012 Rule 9.1";
       classification := "mandatory"; description := JStr "first" |}
  = Raise TypeError.
Proof.
  apply (proj2 (adapters_and_make_key (fun _ => "") (fun s => s))
           (JInt 101) (JStr "MISRA C-2012 Rule 9.1")
           (current_event JNull (JInt 2) (JStr "first"))
           {| cid := JInt 101; file := JNull; line := JInt 2;
              checker := JStr "MISRA C-2012 Rule 9.1";
              classification := "mandatory";
              description := JStr "first" |}).
  reflexivity.
Defined.

(** X8: the key does not tell records apart: a file whose name ends in
    "1" at line 2 and the file without that "1" at line 100002 have the
    same key, for any checker and id. *)
Theorem make_key_collision (repr_float : spec_float -> string)
    (repr_str : string -> string) (f c : string) (id d1 d2 : json)
    (cl : string) :
  let i1 := {| cid := id; file := JStr (f +:+ "1"); line := JInt 2;
               checker := JStr c; classification := cl;
               description := d1 |} in
  let i2 := {| cid := id; file := JStr f; line := JInt 100002;
               checker := JStr c; classification := cl;
               description := d2 |} in
  file i1 <> file i2 /\ line i1 <> line i2
  /\ make_key repr_float repr_str i1 = make_key repr_float repr_str i2
  /\ exists k, make_key repr_float repr_str i1 = Ok k.
Proof.
  intros i1 i2.
  assert (Hne : f +:+ "1" <> f).
  { intros H. apply (f_equal String.length) in H.
    rewrite str_length_app in H. cbn [String.length] in H. lia. }
  split; [cbn; congruence|]. split; [discriminate|].
  rewrite (make_key_concat _ _ i1 (f +:+ "1") c eq_refl eq_refl).
  rewrite (make_key_concat _ _ i2 f c eq_refl eq_refl).
  split; [|eauto]. cbn [line cid i1 i2]. now rewrite str_app_assoc.
Qed.

(** ** The totals during an iteration *)

Lemma count_incr (k k' : string) (t : gmap string Z) :
  count k (incr k' t)
  = if String.eqb k k' then count k t + 1 else count k t.
Proof.
  unfold incr, count. rewrite defaultdict_getitem_eq.
  destruct (String.eqb_spec k k') as [->|Hne].
  - now rewrite lookup_insert_eq.
  - now rewrite !lookup_insert_ne by congruence.
Qed.

Lemma incr_balanced (cls : string) (t : gmap string Z) :
  In cls classes -> balanced t -> balanced (incr "total" (incr cls t)).
Proof.
  unfold classes, balanced. cbn [In].
  intros [<-|[<-|[<-|[<-|[]]]]] H; rewrite !count_incr; cbn; lia.
Qed.

Lemma v1_groups_balanced (sa : bool) (occ : option json)
    (groups : list json) (t t' : gmap string Z) (out : outcome)
    (g' : generator) :
  v1_groups sa occ groups t = (out, g', t') -> balanced t -> balanced t'.
Proof.
  revert t. induction groups as [|g groups IH]; intros t; cbn [v1_groups].
  - now intros [= _ _ <-].
  - destruct (filter_groups_v1 sa g) as [[|]|e];
      [| apply IH | now intros [= _ _ <-]].
    destruct (o ← local "occurrence" occ; name ← getitem o "checkerName";
              _classify_checker name) as [cls|e] eqn:E;
      [|now intros [= _ _ <-]].
    assert (Hcls : In cls classes).
    { destruct (local "occurrence" occ) as [o|]; [|discriminate].
      cbn [mbind result_bind] in E.
      destruct (getitem o "checkerName") as [name|]; [|discriminate].
      now apply (classify_in_classes name). }
    intros H Hb. pose proof (incr_balanced cls t Hcls Hb) as Hb'.
    destruct (getitem g "occurrences" ≫= py_iter) as [[|o occs]|e].
    + now apply (IH _ H).
    + unfold v1_occurrence in H.
      now destruct (c ← getitem g "cid"; _new_issue c o);
        injection H as _ _ <-.
    + now injection H as _ _ <-.
Qed.

Lemma v7_groups_balanced (groups : list json) (t t' : gmap string Z)
    (out : outcome) (g' : generator) :
  v7_groups groups t = (out, g', t') -> balanced t -> balanced t'.
Proof.
  revert t. induction groups as [|g groups IH]; intros t; cbn [v7_groups].
  - now intros [= _ _ <-].
  - destruct (filter_groups_v7 g) as [[|]|e];
      [| apply IH | now intros [= _ _ <-]].
    destruct (name ← getitem g "checkerName"; _classify_checker name)
      as [cls|e] eqn:E; [|now intros [= _ _ <-]].
    assert (Hcls : In cls classes).
    { destruct (getitem g "checkerName") as [name|]; [|discriminate].
      now apply (classify_in_classes name). }
    intros H Hb. pose proof (incr_balanced cls t Hcls Hb) as Hb'.
    destruct (getitem g "events" ≫= py_iter) as [[|ev events]|e].
    + now apply (IH _ H).
    + unfold v7_event in H.
      now destruct (c ← get g "cid"; name ← getitem g "checkerName";
                    _new_issue_v7 c name ev); injection H as _ _ <-.
    + now injection H as _ _ <-.
Qed.

Lemma next_balanced (sa : bool) (g g' : generator) (t t' : gmap string Z)
    (out : outcome) :
  next sa g t = (out, g', t') -> balanced t -> balanced t'.
Proof.
  destruct g as [report|groups grp occs occ|report|groups grp events|];
    cbn [next].
  - destruct (getitem report "issueInfo" ≫= py_iter);
      [apply v1_groups_balanced | now intros [= _ _ <-]].
  - destruct occs as [|o occs]; [apply v1_groups_balanced|].
    unfold v1_occurrence.
    now destruct (c ← getitem grp "cid"; _new_issue c o);
      intros [= _ _ <-].
  - destruct (getitem report "issues" ≫= py_iter);
      [apply v7_groups_balanced | now intros [= _ _ <-]].
  - destruct events as [|ev events]; [apply v7_groups_balanced|].
    unfold v7_event.
    now destruct (c ← get grp "cid"; name ← getitem grp "checkerName";
                  _new_issue_v7 c name ev); intros [= _ _ <-].
  - now intros [= _ _ <-].
Qed.

Lemma yield_from_balanced (self self' : Issues) (out : outcome)
    (st' : iter_state) :
  yield_from self = (out, st', self') ->
  balanced (totals self) -> balanced (totals self').
Proof.
  unfold yield_from. destruct (gen self) as [g|]; [|now intros [= _ _ <-]].
  destruct (next (show_all self) g (totals self)) as [[o g'] t'] eqn:E.
  intros H Hb. apply (next_balanced _ _ _ _ _ _ E) in Hb.
  now destruct o; injection H as _ _ <-.
Qed.

Lemma iter_next_balanced (fs : filesystem) (st st' : iter_state)
    (self self' : Issues) (out : outcome) :
  iter_next fs st self = (out, st', self') ->
  balanced (totals self) -> balanced (totals self').
Proof.
  destruct st; cbn [iter_next].
  - destruct (gen self); [apply yield_from_balanced|].
    destruct (_gen fs self); [|now intros [= _ _ <-]].
    intros H Hb. exact (yield_from_balanced _ _ _ _ H Hb).
  - apply yield_from_balanced.
  - now intros [= _ _ <-].
Qed.

Lemma for_loop_balanced (fs : filesystem) (fuel : nat) (st : iter_state)
    (self self' : Issues) (recs : list issue_dict) (e : option exn) :
  for_loop fs fuel st self = Some (recs, e, self') ->
  balanced (totals self) -> balanced (totals self').
Proof.
  revert st self recs e.
  induction fuel as [|fuel IH]; intros st self recs e;
    cbn [for_loop]; [discriminate|].
  destruct (iter_next fs st self) as [[out st1] self1] eqn:E.
  intros H Hb. apply (iter_next_balanced _ _ _ _ _ _ E) in Hb.
  destruct out as [i| |x].
  - destruct (for_loop fs fuel st1 self1) as [[[rest e1] s1]|] eqn:F;
      [|discriminate].
    injection H as _ _ <-. now apply (IH _ _ _ _ F).
  - now injection H as _ _ <-.
  - now injection H as _ _ <-.
Qed.

(** X9: the iteration keeps the totals balanced: if "total" is the sum of
    "mandatory", "required", "advisory" and "unknown" before a loop over
    the object, it is so after it, under either adapter and also when the
    loop ends with an exception; so it is for a fresh object, whose
    totals are empty. *)
Theorem totals_stay_balanced (fs : filesystem) (fuel : nat)
    (self self' : Issues) (recs : list issue_dict) (e : option exn) :
  balanced (totals self) ->
  iterate fs fuel self = Some (recs, e, self') ->
  balanced (totals self').
Proof. intros Hb H. exact (for_loop_balanced _ _ _ _ _ _ _ H Hb). Qed.

Lemma totals_stay_balanced_witness :
  balanced
    (totals {| path := "report.json"; show_all := false; iterated := false;
               totals := {[ "mandatory" := 1; "total" := 1 ]};
               gen := Some Finished |}).
Proof.
  apply (totals_stay_balanced
           (on_disk (one_group_report "checkerName" "plat/a.c")) 3
           (__init__ "report.json" false)
           {| path := "report.json"; show_all := false; iterated := false;
              totals := {[ "mandatory" := 1; "total" := 1 ]};
              gen := Some Finished |}
           [ {| cid := JInt 101; file := JStr "plat/a.c"; line := JInt 2;
                checker := JStr "MISRA C-2012 Rule 9.1";
                classification := "mandatory";
                description := JStr "first" |};
             {| cid := JInt 101; file := JStr "plat/a.c"; line := JInt 10;
                checker := JStr "MISRA C-2012 Rule 9.1";
                classification := "mandatory";
                description := JStr "second" |} ]
           None).
  - reflexivity.
  - vm_compute. reflexivity.
Defined.

(** ** What the pattern captures *)

Lemma at_end_blank (a b : string) (c : ascii) :
  at_end (a +:+ String " " (String c b)) = false.
Proof. now destruct a as [|x [|y a]]. Qed.

(** A number can not start where a blank and more text are still to
    come. *)
Lemma plus_number_blocked {R} (a b : string) (c : ascii)
    (f : string -> R) :
  plus is_number_char (a +:+ String " " (String c b))
    (fun m rest => if at_end rest then Some (f m) else None) = None.
Proof.
  revert f. induction a as [|x a IH]; intros f; [reflexivity|].
  rewrite str_app_cons. cbn [plus].
  destruct (is_number_char x); [|reflexivity].
  rewrite (IH (fun m => f (String x m))). now rewrite at_end_blank.
Qed.

Lemma word_not_blank (c : ascii) : is_word c = true -> Ascii.eqb c " " = false.
Proof. destruct (Ascii.eqb_spec c " ") as [->|]; [discriminate | reflexivity]. Qed.

(** The word of the pattern is the whole run of word characters: the
    match goes on only if a blank follows the run. *)
Lemma plus_word_run {R} (c x : ascii) (w r : string)
    (K : string -> string -> option R) :
  all_chars is_word (String c w) = true -> is_word x = false ->
  plus is_word (String c w +:+ String x r)
    (fun kind rest =>
       match rest with
       | String d rest1 => if Ascii.eqb d " " then K kind rest1 else None
       | EmptyString => None
       end)
  = if Ascii.eqb x " " then K (String c w) r else None.
Proof.
  revert c K. induction w as [|c' w IH]; intros c K Hall Hx;
    cbn [all_chars] in Hall; apply andb_true_iff in Hall as [Hc Hall].
  - rewrite str_app_cons. change (EmptyString +:+ String x r) with (String x r).
    cbn [plus]. now rewrite Hc, Hx.
  - rewrite str_app_cons. cbn [plus]. rewrite Hc.
    rewrite (IH c' (fun m rest => K (String c m) rest) Hall Hx).
    destruct (Ascii.eqb x " "), (K (String c (String c' w)) r);
      try reflexivity;
      rewrite str_app_cons; cbn [all_chars] in Hall;
      apply andb_true_iff in Hall as [Hc' _];
      now rewrite (word_not_blank c' Hc').
Qed.

Lemma split_word_run (ps : string) :
  ps <> EmptyString -> last_not_word ps = true ->
  exists w x ps', ps = w +:+ String x ps'
                  /\ all_chars is_word w = true /\ is_word x = false.
Proof.
  induction ps as [|c ps IH]; [congruence|]. intros _ Hl.
  destruct (is_word c) eqn:Hc.
  - destruct ps as [|c' ps]; [cbn in Hl; now rewrite Hc in Hl|].
    destruct IH as (w & x & ps' & -> & Hw & Hx); [discriminate | exact Hl |].
    exists (String c w), x, ps'. cbn [all_chars]. now rewrite Hc, Hw.
  - now exists EmptyString, c, ps.
Qed.

(** The pattern matches nowhere inside a prefix that ends outside a
    word. *)
Lemma match_blocked (ps kind number tail : string) (b : ascii) :
  ps <> EmptyString -> last_not_word ps = true ->
  _checker_re_match (ps +:+ kind +:+ " " +:+ String b number +:+ tail)
  = None.
Proof.
  intros Hne Hl.
  destruct (split_word_run ps Hne Hl) as (w & x & ps' & -> & Hw & Hx).
  rewrite str_app_assoc, str_app_cons. unfold _checker_re_match.
  destruct w as [|c w].
  - change (EmptyString +:+ String x (ps' +:+ kind +:+ " "
              +:+ String b number +:+ tail))
      with (String x (ps' +:+ kind +:+ " " +:+ String b number +:+ tail)).
    apply plus_stops. cbn [stops]. now rewrite Hx.
  - rewrite (plus_word_run c x w _ _ Hw Hx).
    destruct (Ascii.eqb x " "); [|reflexivity].
    rewrite <- str_app_assoc.
    change (" " +:+ String b number +:+ tail)
      with (String " " (String b (number +:+ tail))).
    apply (plus_number_blocked (ps' +:+ kind) (number +:+ tail) b
             (fun m => (String c w, m))).
Qed.

Lemma match_here (a b : ascii) (kind number tail : string) :
  all_chars is_word (String a kind) = true ->
  all_chars is_number_char (String b number) = true ->
  at_end tail = true ->
  _checker_re_match (String a kind +:+ " " +:+ String b number +:+ tail)
  = Some (String a kind, String b number).
Proof.
  intros Hk Hn Ht. unfold _checker_re_match.
  change (" " +:+ String b number +:+ tail)
    with (String " " (String b number +:+ tail)).
  rewrite (plus_word_run a " " kind _ _ Hk eq_refl).
  cbn [Ascii.eqb Bool.eqb andb].
  apply plus_run; [assumption | | now rewrite Ht].
  destruct tail as [|c [|c' tail]]; try discriminate; [reflexivity|].
  cbn [at_end] in Ht. apply Ascii.eqb_eq in Ht as ->. reflexivity.
Qed.

Lemma search_cons_none (c : ascii) (s : string) :
  _checker_re_match (String c s) = None ->
  _checker_re_search (String c s) = _checker_re_search s.
Proof. intros H. cbn [_checker_re_search]. now rewrite H. Qed.

Lemma search_prefix (pre : string) (a b : ascii) (kind number tail : string) :
  last_not_word pre = true ->
  all_chars is_word (String a kind) = true ->
  all_chars is_number_char (String b number) = true ->
  at_end tail = true ->
  _checker_re_search
    (pre +:+ String a kind +:+ " " +:+ String b number +:+ tail)
  = Some (String a kind, String b number).
Proof.
  intros Hl Hk Hn Ht. induction pre as [|c pre IH].
  - apply search_match. now apply match_here.
  - pose proof (match_blocked (String c pre) (String a kind) number tail b
                  ltac:(discriminate) Hl) as H.
    rewrite str_app_cons in *. rewrite (search_cons_none _ _ H).
    apply IH. destruct pre as [|c' pre]; [reflexivity | exact Hl].
Qed.

(** X10: the pattern looks at the end of the checker only.  When the
    checker is some text that is empty or ends outside a word, followed by
    a word, one blank, a dotted number and nothing more than a final
    newline, the groups are that word and that number, and the class is
    the class of the word and number alone: the text before them does not
    count. *)
Theorem classify_ignores_prefix (pre : string) (a b : ascii)
    (kind number tail : string) :
  last_not_word pre = true ->
  all_chars is_word (String a kind) = true ->
  all_chars is_number_char (String b number) = true ->
  at_end tail = true ->
  _checker_re_search
    (pre +:+ String a kind +:+ " " +:+ String b number +:+ tail)
  = Some (String a kind, String b number)
  /\ _classify_checker
       (JStr (pre +:+ String a kind +:+ " " +:+ String b number +:+ tail))
     = _classify_checker (JStr (String a kind +:+ " " +:+ String b number)).
Proof.
  intros Hl Hk Hn Ht.
  pose proof (search_prefix pre a b kind number tail Hl Hk Hn Ht) as H1.
  pose proof (search_prefix "" a b kind number "" eq_refl Hk Hn eq_refl)
    as H2.
  change (EmptyString +:+ String a kind +:+ " " +:+ String b number +:+ "")
    with (String a kind +:+ " " +:+ String b number +:+ "") in H2.
  rewrite str_app_nil_r in H2.
  split; [exact H1|]. unfold _classify_checker. now rewrite H1, H2.
Qed.

Lemma classify_ignores_prefix_witness :
  _checker_re_search ("MISRA C-2012 " +:+ "Rule" +:+ " " +:+ "9.1" +:+ nl)
  = Some ("Rule", "9.1")
  /\ _classify_checker
       (JStr ("MISRA C-2012 " +:+ "Rule" +:+ " " +:+ "9.1" +:+ nl))
     = _classify_checker (JStr ("Rule" +:+ " " +:+ "9.1")).
Proof.
  apply (classify_ignores_prefix "MISRA C-2012 " "R" "9" "ule" ".1" nl);
    reflexivity.
Defined.

(** ** The current stream as a whole *)

Lemma for_loop_step (fs : filesystem) (fuel : nat) (self : Issues)
    (g : generator) :
  gen self = Some g ->
  for_loop fs (S fuel) It_from self
  = let '(out, g', t') := next (show_all self) g (totals self) in
    match out with
    | Yield i =>
        match for_loop fs fuel It_from (set_state self g' t') with
        | Some (rest, e, s) => Some (i :: rest, e, s)
        | None => None
        end
    | StopIteration => Some ([], None, set_state self g' t')
    | Raised e => Some ([], Some e, set_state self g' t')
    end.
Proof.
  intros Hg. cbn [for_loop iter_next]. unfold yield_from. rewrite Hg.
  destruct (next (show_all self) g (totals self)) as [[out g'] t'].
  now destruct out.
Qed.

Lemma for_loop_step_set (fs : filesystem) (fuel : nat) (self : Issues)
    (g : generator) (t : gmap string Z) :
  for_loop fs (S fuel) It_from (set_state self g t)
  = let '(out, g', t') := next (show_all self) g t in
    match out with
    | Yield i =>
        match for_loop fs fuel It_from (set_state self g' t') with
        | Some (rest, e, s) => Some (i :: rest, e, s)
        | None => None
        end
    | StopIteration => Some ([], None, set_state self g' t')
    | Raised e => Some ([], Some e, set_state self g' t')
    end.
Proof. exact (for_loop_step fs fuel (set_state self g t) g eq_refl). Qed.

(** Two objects that differ in their generators only, whose generators
    take the same next step, loop alike. *)
Lemma for_loop_same_next (fs : filesystem) (fuel : nat) (self : Issues)
    (g1 g2 : generator) (t1 t2 : gmap string Z) :
  next (show_all self) g1 t1 = next (show_all self) g2 t2 ->
  for_loop fs (S fuel) It_from (set_state self g1 t1)
  = for_loop fs (S fuel) It_from (set_state self g2 t2).
Proof.
  intros H.
  rewrite !for_loop_step_set. now rewrite H.
Qed.

Lemma set_state_id (self : Issues) (g : generator) :
  gen self = Some g -> set_state self g (totals self) = self.
Proof. destruct self. cbn. now intros ->. Qed.

Lemma filter_encode_group (g : cur_group) :
  filter_groups_v7 (encode_group g) = Ok (outside_ignored g).
Proof.
  unfold encode_group. rewrite filter_groups_v7_current by discriminate.
  cbn [String.eqb Ascii.eqb Bool.eqb andb as_str].
  change (in_strs JNull _rule_exclusions) with false. cbn iota.
  rewrite in_skip_dirs_ok. cbn [mbind result_bind]. unfold outside_ignored.
  now destruct (existsb (startswith (g_path g)) IGNORED_DIRS).
Qed.

Lemma v7_event_encode (groups : list json) (g : cur_group) (e : cur_event)
    (events : list json) (t : gmap string Z) (cls : string) :
  _classify_checker (JStr (g_name g)) = Ok cls ->
  v7_event groups (encode_group g) (encode_event e) events t
  = (Yield (event_record cls g e), V7_loop groups (encode_group g) events, t).
Proof.
  intros Hcls. unfold v7_event, encode_group, current_group, get, get_default.
  cbn [assoc String.eqb Ascii.eqb Bool.eqb andb from_option id getitem
       mbind result_bind].
  unfold _new_issue_v7, encode_event, current_event.
  cbn [assoc String.eqb Ascii.eqb Bool.eqb andb getitem mbind result_bind].
  rewrite Hcls. reflexivity.
Qed.

(** The inner loop: one record for every event that is left. *)
Lemma for_loop_events (fs : filesystem) (groups : list json)
    (g : cur_group) (cls : string) (events : list cur_event) :
  _classify_checker (JStr (g_name g)) = Ok cls ->
  forall (fuel : nat) (self : Issues) (t : gmap string Z)
    (recs : list issue_dict) (e : option exn) (s : Issues),
    for_loop fs fuel It_from
      (set_state self
         (V7_loop groups (encode_group g) (map encode_event events)) t)
    = Some (recs, e, s) ->
    exists fuel' recs',
      for_loop fs fuel' It_from
        (set_state self (V7_loop groups (encode_group g) []) t)
      = Some (recs', e, s)
      /\ recs = (map (event_record cls g) events ++ recs')%list.
Proof.
  intros Hcls. induction events as [|ev events IH];
    intros fuel self t recs e s H.
  - now exists fuel, recs.
  - destruct fuel as [|fuel]; [discriminate|].
    rewrite for_loop_step_set in H. cbn [map next] in H.
    rewrite (v7_event_encode _ _ _ _ _ cls Hcls) in H.
    destruct (for_loop fs fuel It_from _) as [[[rest e1] s1]|] eqn:F;
      [|discriminate].
    injection H as <- <- <-.
    destruct (IH fuel self t rest e1 s1 F) as (fuel' & recs' & F' & ->).
    now exists fuel', recs'.
Qed.

(** The outer loop, from between two groups. *)
Lemma for_loop_groups (fs : filesystem) (groups : list cur_group) :
  forall (fuel : nat) (self : Issues) (g0 : json) (t : gmap string Z)
    (recs : list issue_dict) (e : option exn) (s : Issues),
    for_loop fs fuel It_from
      (set_state self (V7_loop (map encode_group groups) g0 []) t)
    = Some (recs, e, s) ->
    exists t', whole_pass groups t = (recs, e, t')
               /\ s = set_state self Finished t'.
Proof.
  induction groups as [|g groups IH]; intros fuel self g0 t recs e s H;
    (destruct fuel as [|fuel]; [discriminate|]).
  - rewrite for_loop_step_set in H.
    cbn [map next v7_groups] in H. injection H as <- <- <-. now exists t.
  - cbn [whole_pass].
    destruct (outside_ignored g) eqn:Hkeep.
    + destruct (_classify_checker (JStr (g_name g))) as [cls|x] eqn:Hcls.
      * destruct (g_events g) as [|ev events] eqn:Hev.
        -- rewrite (for_loop_same_next fs fuel self _
                      (V7_loop (map encode_group groups) g0 [])
                      _ (incr "total" (incr cls t))) in H.
           ++ destruct (IH _ _ _ _ _ _ _ H) as (t' & -> & ->).
              now exists t'.
           ++ cbn [next map v7_groups]. rewrite filter_encode_group, Hkeep.
              unfold encode_group at 1 2, current_group. rewrite Hev.
              cbn [assoc String.eqb Ascii.eqb Bool.eqb andb getitem
                   mbind result_bind py_iter map].
              now rewrite Hcls.
        -- rewrite for_loop_step_set in H.
           cbn [map next v7_groups] in H.
           rewrite filter_encode_group, Hkeep in H.
           assert (Hn : (name ← getitem (encode_group g) "checkerName";
                         _classify_checker name) = Ok cls)
             by (cbn; exact Hcls).
           rewrite Hn in H.
           assert (He : getitem (encode_group g) "events" ≫= py_iter
                        = Ok (encode_event ev :: map encode_event events))
             by (unfold encode_group; now rewrite Hev).
           rewrite He, (v7_event_encode _ _ _ _ _ cls Hcls) in H.
           destruct (for_loop fs fuel It_from _) as [[[rest e1] s1]|] eqn:F;
             [|discriminate].
           injection H as <- <- <-.
           destruct (for_loop_events fs _ g cls events Hcls _ self _ _ _ _ F)
             as (fuel' & recs' & F' & ->).
           destruct (IH _ _ _ _ _ _ _ F') as (t' & -> & ->).
           now exists t'.
      * rewrite for_loop_step_set in H.
        cbn [map next v7_groups] in H.
        rewrite filter_encode_group, Hkeep in H.
        assert (Hn : (name ← getitem (encode_group g) "checkerName";
                      _classify_checker name) = Raise x)
          by (cbn; exact Hcls).
        rewrite Hn in H. injection H as <- <- <-. now exists t.
    + rewrite (for_loop_same_next fs fuel self _
                 (V7_loop (map encode_group groups) g0 []) _ t) in H.
      * exact (IH _ _ _ _ _ _ _ H).
      * cbn [next map v7_groups]. now rewrite filter_encode_group, Hkeep.
Qed.

Lemma for_loop_start (fs : filesystem) (fuel : nat) (self : Issues)
    (g : generator) :
  gen self = None -> _gen fs self = Ok g ->
  for_loop fs (S fuel) It_start self
  = for_loop fs (S fuel) It_from (set_state self g (totals self)).
Proof. intros Hg Hgen. cbn [for_loop iter_next]. now rewrite Hg, Hgen. Qed.

Lemma current_iterate (groups : list cur_group) (v : Z)
    (p : string) (sa : bool) (fuel : nat) :
  7 <= v ->
  (bound (on_disk (current_report (JInt v) (map encode_group groups)))
     (__init__ p sa) < fuel)%nat ->
  exists recs e t',
    whole_pass groups ∅ = (recs, e, t')
    /\ iterate (on_disk (current_report (JInt v) (map encode_group groups)))
         fuel (__init__ p sa)
       = Some (recs, e,
               {| path := p; show_all := sa; iterated := false;
                  totals := t'; gen := Some Finished |}).
Proof.
  intros Hv Hfuel.
  set (report := current_report (JInt v) (map encode_group groups)) in *.
  destruct (for_loop_total (on_disk report) fuel It_start (__init__ p sa)
              Hfuel) as [[[recs e] s] H].
  exists recs, e. unfold iterate. rewrite H.
  destruct fuel as [|fuel]; [discriminate|].
  assert (Hgen : _gen (on_disk report) (__init__ p sa) = Ok (V7_start report)).
  { unfold _gen, on_disk, report, current_report, get_default.
    cbn [mbind result_bind assoc String.eqb Ascii.eqb Bool.eqb andb
         from_option id ge_int].
    destruct (Z.leb_spec 7 v); [reflexivity | lia]. }
  rewrite (for_loop_start (on_disk report) fuel (__init__ p sa)
             (V7_start report) eq_refl Hgen) in H.
  change (totals (__init__ p sa)) with (∅ : gmap string Z) in H.
  rewrite (for_loop_same_next _ fuel (__init__ p sa) _
             (V7_loop (map encode_group groups) JNull []) _ ∅) in H
    by reflexivity.
  destruct (for_loop_groups _ _ _ _ _ _ _ _ _ H) as (t' & Hp & ->).
  exists t'. split; [exact Hp | reflexivity].
Qed.

(** X11: on a well-formed report of version 7 or more a loop over a
    fresh object runs the whole pass: the groups under an ignored
    directory are skipped; every other group adds one to "total" and one
    to its class and gives one record for each of its events, in order,
    with the cid and checker of the group and the file, line and text of
    the event; the pass ends at the first such group whose checker has a
    kind that is not known, with the KeyError of the classifier, keeping
    the records and totals of the groups before it. *)
Theorem current_stream_whole_pass (groups : list cur_group) (v : Z)
    (p : string) (sa : bool) (fuel : nat) :
  7 <= v ->
  (bound (on_disk (current_report (JInt v) (map encode_group groups)))
     (__init__ p sa) < fuel)%nat ->
  exists recs e t',
    whole_pass groups ∅ = (recs, e, t')
    /\ iterate (on_disk (current_report (JInt v) (map encode_group groups)))
         fuel (__init__ p sa)
       = Some (recs, e,
               {| path := p; show_all := sa; iterated := false;
                  totals := t'; gen := Some Finished |}).
Proof. exact (current_iterate groups v p sa fuel). Qed.

Lemma current_stream_whole_pass_witness :
  exists recs e t',
    whole_pass
      [ {| g_name := "MISRA C-2012 Rule 9.1"; g_path := "plat/a.c";
           g_cid := JInt 101;
           g_events := [ {| ev_file := JStr "plat/a.c"; ev_line := JInt 2;
                            ev_text := JStr "first" |};
                         {| ev_file := JStr "plat/a.c"; ev_line := JInt 10;
                            ev_text := JStr "second" |} ] |} ] ∅
    = (recs, e, t')
    /\ iterate (on_disk (one_group_report "checkerName" "plat/a.c")) 3
         (__init__ "report.json" false)
       = Some (recs, e,
               {| path := "report.json"; show_all := false;
                  iterated := false; totals := t';
                  gen := Some Finished |}).
Proof.
  apply (current_stream_whole_pass
           [ {| g_name := "MISRA C-2012 Rule 9.1"; g_path := "plat/a.c";
                g_cid := JInt 101;
                g_events := [ {| ev_file := JStr "plat/a.c";
                                 ev_line := JInt 2;
                                 ev_text := JStr "first" |};
                              {| ev_file := JStr "plat/a.c";
                                 ev_line := JInt 10;
                                 ev_text := JStr "second" |} ] |} ]
           7 "report.json" false 3).
  - lia.
  - vm_compute. lia.
Defined.

(** ** The accumulator after the dump *)

Lemma totals_dump_state (d : gmap string Z) :
  exists text,
    format_map TOTALS_FORMAT d
    = Ok (text,
          <["advisory" := count "advisory" d]>
            (<["required" := count "required" d]>
               (<["mandatory" := count "mandatory" d]>
                  (<["total" := count "total" d]> d)))).
Proof.
  unfold format_map, count.
  let t := eval vm_compute in TOTALS_FORMAT in change TOTALS_FORMAT with t.
  do 4 fmt_step.
  cbn [format_from Ascii.eqb Bool.eqb andb mbind result_bind].
  rewrite !lookup_insert_ne by discriminate.
  eexists. reflexivity.
Qed.

(** X12: writing the dump changes the accumulator it reads: afterwards
    "total", "mandatory", "required" and "advisory" are all present, with
    the count they had or with 0; every other key, "unknown" among them,
    is as before. *)
Theorem totals_dump_inserts_zero (d d' : gmap string Z) (text : string) :
  format_map TOTALS_FORMAT d = Ok (text, d') ->
  (forall k, In k ["total"; "mandatory"; "required"; "advisory"] ->
             d' !! k = Some (count k d))
  /\ (forall k, ~ In k ["total"; "mandatory"; "required"; "advisory"] ->
                d' !! k = d !! k).
Proof.
  destruct (totals_dump_state d) as [text' ->]. intros [= _ <-]. split.
  - cbn [In]. intros k [<-|[<-|[<-|[<-|[]]]]].
    + now rewrite !lookup_insert_ne, lookup_insert_eq by discriminate.
    + now rewrite !lookup_insert_ne, lookup_insert_eq by discriminate.
    + now rewrite lookup_insert_ne, lookup_insert_eq by discriminate.
    + now rewrite lookup_insert_eq.
  - cbn [In]. intros k Hk.
    rewrite !lookup_insert_ne; [reflexivity | intros <-; tauto..].
Qed.

Lemma totals_dump_inserts_zero_witness :
  (forall k, In k ["total"; "mandatory"; "required"; "advisory"] ->
             (<["advisory" := 0]>
                (<["required" := 0]>
                   (<["mandatory" := 0]>
                      ({[ "total" := 3; "unknown" := 3 ]}))) : gmap string Z)
             !! k
             = Some (count k {[ "total" := 3; "unknown" := 3 ]}))
  /\ (forall k, ~ In k ["total"; "mandatory"; "required"; "advisory"] ->
                (<["advisory" := 0]>
                   (<["required" := 0]>
                      (<["mandatory" := 0]>
                         ({[ "total" := 3; "unknown" := 3 ]})))
                 : gmap string Z) !! k
                = ({[ "total" := 3; "unknown" := 3 ]} : gmap string Z) !! k).
Proof.
  apply (totals_dump_inserts_zero {[ "total" := 3; "unknown" := 3 ]} _
           ("TotalDefects:     3" +:+ nl +:+ "MandatoryDefects: 0" +:+ nl
            +:+ "RequiredDefects:  0" +:+ nl +:+ "AdvisoryDefects:  0")).
  vm_compute. reflexivity.
Defined.

(** ** The renderings *)

Ltac render :=
  cbn [format_fields Ascii.eqb Bool.eqb andb snoc assoc String.eqb
       issue_items dict_with app mbind result_bind].

(** X13: [format_issue] never raises, on any record, and gives
    [file:line:[checker cls]<cid> description], where every field is the
    [str] of its value and [cls] is the class in brackets after a blank,
    or nothing for "unknown"; braces in a field are copied, not read as
    fields. *)
Theorem format_issue_text (repr_float : spec_float -> string)
    (repr_str : string -> string) (i : issue_dict) :
  format_issue repr_float repr_str i
  = Ok (py_str repr_float repr_str (file i) +:+ ":"
        +:+ py_str repr_float repr_str (line i) +:+ ":["
        +:+ py_str repr_float repr_str (checker i)
        +:+ (if String.eqb (classification i) "unknown" then ""
             else " (" +:+ classification i +:+ ")")
        +:+ "]<" +:+ py_str repr_float repr_str (cid i) +:+ "> "
        +:+ py_str repr_float repr_str (description i)).
Proof.
  unfold format_issue. render. cbn [py_str].
  rewrite !str_app_nil_r. reflexivity.
Qed.


Example format_issue_unknown :
  format_issue (fun _ => "") (fun s => s)
    {| cid := JInt 101; file := JStr "plat/a.c"; line := JInt 2;
       checker := JStr "MISRA C-2012 Rule 99.9";
       classification := "unknown"; description := JStr "a {b} c" |}
  = Ok "plat/a.c:2:[MISRA C-2012 Rule 99.9]<101> a {b} c".
Proof. reflexivity. Qed.

Example format_issue_mandatory :
  format_issue (fun _ => "") (fun s => s)
    {| cid := JInt 101; file := JStr "plat/a.c"; line := JInt 2;
       checker := JStr "MISRA C-2012 Rule 9.1";
       classification := "mandatory"; description := JStr "first" |}
  = Ok "plat/a.c:2:[MISRA C-2012 Rule 9.1 (mandatory)]<101> first".
Proof. reflexivity. Qed.

(** ** The driver *)

Lemma str_lt_asym (a b : string) : str_lt a b = true -> str_lt b a = false.
Proof.
  unfold str_lt, String.ltb. rewrite (String.compare_antisym b a).
  now destruct (String.compare a b).
Qed.

Lemma insert_keyed_perm (x : string * issue_dict)
    (l : list (string * issue_dict)) :
  Permutation (insert_keyed x l) (x :: l).
Proof.
  induction l as [|y l IH]; cbn [insert_keyed]; [reflexivity|].
  destruct (str_lt (fst y) (fst x)); [|reflexivity].
  rewrite IH. apply perm_swap.
Qed.

Lemma sort_keyed_perm (l : list (string * issue_dict)) :
  Permutation (sort_keyed l) l.
Proof.
  induction l as [|x l IH]; [reflexivity|].
  cbn [sort_keyed fold_right]. rewrite insert_keyed_perm.
  now apply perm_skip.
Qed.

Lemma insert_keyed_hd (x y : string * issue_dict)
    (l : list (string * issue_dict)) :
  str_lt (fst y) (fst x) = true ->
  HdRel (fun a b => str_lt b a = false) (fst y) (map fst l) ->
  HdRel (fun a b => str_lt b a = false) (fst y)
    (map fst (insert_keyed x l)).
Proof.
  intros Hyx Hl. destruct l as [|z l]; cbn [insert_keyed].
  - constructor. now apply str_lt_asym.
  - destruct (str_lt (fst z) (fst x)).
    + constructor. now inversion Hl.
    + constructor. now apply str_lt_asym.
Qed.

Lemma insert_keyed_sorted (x : string * issue_dict)
    (l : list (string * issue_dict)) :
  Sorted (fun a b => str_lt b a = false) (map fst l) ->
  Sorted (fun a b => str_lt b a = false) (map fst (insert_keyed x l)).
Proof.
  induction l as [|y l IH]; cbn [insert_keyed map]; intros Hs.
  - repeat constructor.
  - inversion Hs as [|? ? Hs' Hhd]; subst.
    destruct (str_lt (fst y) (fst x)) eqn:E; cbn [map].
    + constructor; [now apply IH | now apply insert_keyed_hd].
    + constructor; [assumption | now constructor].
Qed.

Lemma sort_keyed_sorted (l : list (string * issue_dict)) :
  Sorted (fun a b => str_lt b a = false) (map fst (sort_keyed l)).
Proof.
  induction l as [|x l IH]; [constructor|].
  cbn [sort_keyed fold_right]. now apply insert_keyed_sorted.
Qed.

Lemma map_result_forall2 {A B} (f : A -> result B) (l : list A)
    (ys : list B) :
  map_result f l = Ok ys -> Forall2 (fun x y => f x = Ok y) l ys.
Proof.
  revert ys. induction l as [|x l IH]; intros ys; cbn [map_result].
  - intros [= <-]. constructor.
  - destruct (f x) as [y|] eqn:E; [|discriminate]. cbn [mbind result_bind].
    destruct (map_result f l) as [ys'|]; [|discriminate].
    cbn [mbind result_bind]. intros [= <-]. constructor; auto.
Qed.

Lemma sorted_by_key_ok (repr_float : spec_float -> string)
    (repr_str : string -> string) (l s : list issue_dict) :
  sorted_by_key repr_float repr_str l = Ok s ->
  Permutation l s /\ keys_in_order repr_float repr_str s.
Proof.
  unfold sorted_by_key.
  destruct (map_result _ l) as [keyed|] eqn:E; [|discriminate].
  cbn [mbind result_bind]. intros [= <-].
  apply map_result_forall2 in E.
  assert (Hk : Forall (fun p => make_key repr_float repr_str (snd p)
                                = Ok (fst p)) keyed
               /\ map snd keyed = l).
  { induction E as [|i p l keyed Hp _ [IH1 IH2]]; [now split|].
    destruct (make_key repr_float repr_str i) as [k|] eqn:Ek;
      [|discriminate].
    cbn [mbind result_bind] in Hp. injection Hp as <-.
    split; [constructor; [exact Ek | exact IH1] | cbn; now f_equal]. }
  destruct Hk as [Hk <-]. split.
  - apply Permutation_map. symmetry. apply sort_keyed_perm.
  - exists (map fst (sort_keyed keyed)). split; [|apply sort_keyed_sorted].
    assert (Hs : Forall (fun p => make_key repr_float repr_str (snd p)
                                  = Ok (fst p)) (sort_keyed keyed)).
    { rewrite List.Forall_forall in *. intros p Hp. apply Hk.
      eapply Permutation_in; [apply sort_keyed_perm | exact Hp]. }
    induction Hs; cbn [map]; constructor; auto.
Qed.

(** X15: when the driver comes to its end, what it prints is the records
    of the stream, each once, in the order of their keys (a permutation
    whose keys never decrease), one line of [format_issue] for each; and
    its exit status is 1 when there is a record and 0 when there is
    none. *)
Theorem main_prints_sorted (repr_float : spec_float -> string)
    (repr_str : string -> string) (fs : filesystem) (fuel : nat)
    (show_all want_totals : bool) (json_report : string) (r : run) :
  main repr_float repr_str fs fuel show_all want_totals json_report
  = Some (Ok r) ->
  exists recs self',
    iterate fs fuel (__init__ json_report show_all)
    = Some (recs, None, self')
    /\ Permutation recs (issues r)
    /\ keys_in_order repr_float repr_str (issues r)
    /\ Forall2 (fun i s => format_issue repr_float repr_str i = Ok s)
         (issues r) (printed r)
    /\ exit_status r = (if decide (recs = []) then 0 else 1).
Proof.
  unfold main.
  destruct (iterate fs fuel (__init__ json_report show_all))
    as [[[recs [e|]] self']|]; try discriminate.
  intros H. apply (inj Some) in H. exists recs, self'.
  split; [reflexivity|].
  destruct (sorted_by_key repr_float repr_str recs) as [s|] eqn:Es;
    [|discriminate].
  cbn [mbind result_bind] in H.
  destruct (map_result (format_issue repr_float repr_str) s) as [out|] eqn:Eo;
    [|discriminate].
  cbn [mbind result_bind] in H.
  destruct (sorted_by_key_ok _ _ _ _ Es) as [Hp Hk].
  apply map_result_forall2 in Eo.
  assert (Hx : match s with [] => 0 | _ :: _ => 1 end
               = if decide (recs = []) then 0 else 1).
  { destruct s as [|i s], recs as [|j recs]; try reflexivity.
    - symmetry in Hp. now apply Permutation_nil_cons in Hp.
    - now apply Permutation_nil_cons in Hp. }
  destruct want_totals.
  - destruct (format_map TOTALS_FORMAT (totals self')) as [[text d]|];
      [|discriminate].
    cbn [mbind result_bind] in H. injection H as <-.
    cbn [issues printed exit_status]. auto.
  - cbn [mbind result_bind] in H. injection H as <-.
    cbn [issues printed exit_status]. auto.
Qed.

Lemma main_prints_sorted_witness :
  exists recs self',
    iterate (on_disk (one_group_report "checkerName" "plat/a.c")) 3
      (__init__ "report.json" false)
    = Some (recs, None, self')
    /\ Permutation recs
         [ {| cid := JInt 101; file := JStr "plat/a.c"; line := JInt 2;
              checker := JStr "MISRA C-2012 Rule 9.1";
              classification := "mandatory";
              description := JStr "first" |};
           {| cid := JInt 101; file := JStr "plat/a.c"; line := JInt 10;
              checker := JStr "MISRA C-2012 Rule 9.1";
              classification := "mandatory";
              description := JStr "second" |} ]
    /\ 1 = (if decide (recs = []) then 0 else 1).
Proof.
  destruct (main_prints_sorted (fun _ => "") (fun s => s)
              (on_disk (one_group_report "checkerName" "plat/a.c")) 3
              false false "report.json"
              {| printed :=
                   ["plat/a.c:2:[MISRA C-2012 Rule 9.1 (mandatory)]<101> first";
                    "plat/a.c:10:[MISRA C-2012 Rule 9.1 (mandatory)]<101> second"];
                 issues :=
                   [ {| cid := JInt 101; file := JStr "plat/a.c";
                        line := JInt 2;
                        checker := JStr "MISRA C-2012 Rule 9.1";
                        classification := "mandatory";
                        description := JStr "first" |};
                     {| cid := JInt 101; file := JStr "plat/a.c";
                        line := JInt 10;
                        checker := JStr "MISRA C-2012 Rule 9.1";
                        classification := "mandatory";
                        description := JStr "second" |} ];
                 totals_file := None; exit_status := 1 |})
    as (recs & self' & H1 & H2 & _ & _ & H3).
  - vm_compute. reflexivity.
  - exists recs, self'. auto.
Defined.

Lemma legacy_iterate (fs : filesystem) (self : Issues) (report : json)
    (fuel : nat) :
  gen self = None -> _gen fs self = Ok (V1_start report) ->
  exists e,
    iterate fs (S fuel) self
    = Some ([], e, set_state self Finished (totals self))
    /\ (forall (before after : list json) (g : json),
          getitem report "issueInfo" = Ok (JArr (before ++ g :: after)) ->
          Forall (fun g' => filter_groups_v1 (show_all self) g' = Ok false)
            before ->
          filter_groups_v1 (show_all self) g = Ok true ->
          e = Some (UnboundLocalError "occurrence")).
Proof.
  intros Hg Hgen. unfold iterate.
  rewrite (for_loop_start fs fuel self _ Hg Hgen), for_loop_step_set.
  destruct (next (show_all self) (V1_start report) (totals self))
    as [[out g'] t'] eqn:E.
  destruct (v1_start_never_yields (show_all self) report (totals self))
    as (out' & E' & Hout).
  rewrite E in E'. injection E' as <- -> ->.
  assert (Hk : forall before after g,
             getitem report "issueInfo" = Ok (JArr (before ++ g :: after)) ->
             Forall (fun g' => filter_groups_v1 (show_all self) g' = Ok false)
               before ->
             filter_groups_v1 (show_all self) g = Ok true ->
             out = Raised (UnboundLocalError "occurrence")).
  { intros before after g Hrep Hb Hkept. cbn [next] in E. rewrite Hrep in E.
    cbn [mbind result_bind py_iter] in E.
    rewrite (v1_groups_first_kept _ before after g _ Hb Hkept) in E.
    now injection E as <-. }
  destruct out as [i| |x]; [discriminate | |].
  - exists None. split; [reflexivity|].
    intros before after g H1 H2 H3. now specialize (Hk _ _ _ H1 H2 H3).
  - exists (Some x). split; [reflexivity|].
    intros before after g H1 H2 H3. specialize (Hk _ _ _ H1 H2 H3).
    congruence.
Qed.

Lemma totals_dump_of_empty :
  format_map TOTALS_FORMAT ∅
  = Ok ("TotalDefects:     0" +:+ nl +:+ "MandatoryDefects: 0" +:+ nl
        +:+ "RequiredDefects:  0" +:+ nl +:+ "AdvisoryDefects:  0",
        {[ "total" := 0; "mandatory" := 0; "required" := 0;
           "advisory" := 0 ]}).
Proof. vm_compute. reflexivity. Qed.

(** X16: on a report that selects the legacy adapter the driver never
    prints a defect: either it ends with an exception, which it does with
    UnboundLocalError as soon as the report has a group that the filter
    keeps after groups it drops, or it prints nothing, exits with status
    0 and, when asked for the totals, writes four zeros. *)
Theorem main_legacy (repr_float : spec_float -> string)
    (repr_str : string -> string) (fs : filesystem) (fuel : nat)
    (show_all want_totals : bool) (json_report : string) (report : json) :
  _gen fs (__init__ json_report show_all) = Ok (V1_start report) ->
  (exists res,
     main repr_float repr_str fs (S fuel) show_all want_totals json_report
     = Some res
     /\ match res with
        | Raise _ => True
        | Ok r =>
            printed r = [] /\ issues r = [] /\ exit_status r = 0
            /\ totals_file r
               = if want_totals
                 then Some ("TotalDefects:     0" +:+ nl
                            +:+ "MandatoryDefects: 0" +:+ nl
                            +:+ "RequiredDefects:  0" +:+ nl
                            +:+ "AdvisoryDefects:  0")
                 else None
        end)
  /\ (forall (before after : list json) (g : json),
        getitem report "issueInfo" = Ok (JArr (before ++ g :: after)) ->
        Forall (fun g' => filter_groups_v1 show_all g' = Ok false) before ->
        filter_groups_v1 show_all g = Ok true ->
        main repr_float repr_str fs (S fuel) show_all want_totals json_report
        = Some (Raise (UnboundLocalError "occurrence"))).
Proof.
  intros Hgen.
  destruct (legacy_iterate fs (__init__ json_report show_all) report fuel
              eq_refl Hgen) as (e & Hit & Hkept).
  unfold main. rewrite Hit. split.
  - destruct e as [x|]; [now exists (Raise x)|].
    cbn [sorted_by_key map_result mbind result_bind sort_keyed fold_right map].
    change (totals (set_state (__init__ json_report show_all) Finished
                      (totals (__init__ json_report show_all))))
      with (∅ : gmap string Z).
    rewrite totals_dump_of_empty.
    destruct want_totals; eexists; (split; [reflexivity|]); cbn; auto.
  - intros before after g H1 H2 H3.
    now rewrite (Hkept before after g H1 H2 H3).
Qed.

Lemma main_legacy_witness :
  main (fun _ => "") (fun s => s) (on_disk two_group_report) 1 false true
    "report.json"
  = Some (Raise (UnboundLocalError "occurrence")).
Proof.
  apply (proj2 (main_legacy (fun _ => "") (fun s => s)
                  (on_disk two_group_report) 0 false true "report.json"
                  two_group_report eq_refl)
           []
           [legacy_group (JInt 102) (JStr "Undecided") (JBool false)
              [legacy_occurrence (JStr "MISRA C-2012 Rule 2.4")
                 (JStr "/plat/b.c") (JInt 7) (JStr "third")]]
           (legacy_group (JInt 101) (JStr "Undecided") (JBool false)
              [legacy_occurrence (JStr "MISRA C-2012 Rule 9.1")
                 (JStr "/plat/a.c") (JInt 2) (JStr "first");
               legacy_occurrence (JStr "MISRA C-2012 Rule 9.1")
                 (JStr "/plat/a.c") (JInt 10) (JStr "second")])).
  - reflexivity.
  - constructor.
  - reflexivity.
Defined.

(** ** Two loops over one object *)




(** ** Counting once for a group *)

Lemma whole_pass_counts (groups : list cur_group) :
  Forall classified (kept_groups groups) ->
  forall t, exists recs t',
    whole_pass groups t = (recs, None, t')
    /\ length recs = length (kept_events groups)
    /\ count "total" t'
       = count "total" t + Z.of_nat (length (kept_groups groups)).
Proof.
  unfold kept_events, kept_groups.
  induction groups as [|g groups IH]; intros Hc t; cbn [whole_pass List.filter].
  - exists [], t. cbn. split; [reflexivity|]. split; [reflexivity | lia].
  - cbn [List.filter] in Hc. destruct (outside_ignored g).
    + inversion Hc as [|? ? [cls Hcls] Hc']; subst. rewrite Hcls.
      destruct (IH Hc' (incr "total" (incr cls t))) as (recs & t' & -> & Hl & Ht).
      eexists _, t'. split; [reflexivity|]. cbn [flat_map length].
      rewrite !length_app, length_map, Hl. split; [reflexivity|].
      assert (Hne : String.eqb "total" cls = false).
      { apply String.eqb_neq. intros <-.
        apply classify_in_classes in Hcls. cbn in Hcls.
        repeat (destruct Hcls as [Hcls|Hcls]; [discriminate|]). exact Hcls. }
      rewrite Ht, !count_incr, Hne, String.eqb_refl. lia.
    + apply (IH Hc t).
Qed.

(** X18: the totals count groups and the records count events.  On a
    well-formed report of version 7 or more whose kept groups all have a
    checker with a class, a loop over a fresh object ends without an
    exception, gives as many records as the kept groups have events, and
    leaves in "total" the number of kept groups; a kept group without
    events is counted though nothing is printed for it. *)
Theorem current_stream_counts (groups : list cur_group) (v : Z)
    (p : string) (sa : bool) (fuel : nat) :
  7 <= v ->
  (bound (on_disk (current_report (JInt v) (map encode_group groups)))
     (__init__ p sa) < fuel)%nat ->
  Forall classified (kept_groups groups) ->
  exists recs self',
    iterate (on_disk (current_report (JInt v) (map encode_group groups)))
      fuel (__init__ p sa) = Some (recs, None, self')
    /\ length recs = length (kept_events groups)
    /\ count "total" (totals self')
       = Z.of_nat (length (kept_groups groups)).
Proof.
  intros Hv Hfuel Hc.
  destruct (current_iterate groups v p sa fuel Hv Hfuel)
    as (recs & e & t' & Hp & Hit).
  destruct (whole_pass_counts groups Hc ∅) as (recs' & t'' & Hp' & Hl & Ht).
  rewrite Hp in Hp'. injection Hp' as -> -> ->.
  eexists _, _. split; [exact Hit|]. split; [exact Hl|].
  cbn [totals]. rewrite Ht. reflexivity.
Qed.

Lemma current_stream_counts_witness :
  exists recs self',
    iterate
      (on_disk
         (current_report (JInt 7)
            (map encode_group
               [ {| g_name := "MISRA C-2012 Rule 9.1"; g_path := "plat/a.c";
                    g_cid := JInt 101; g_events := [] |} ])))
      1 (__init__ "report.json" false) = Some (recs, None, self')
    /\ length recs = 0%nat
    /\ count "total" (totals self') = 1.
Proof.
  apply (current_stream_counts
           [ {| g_name := "MISRA C-2012 Rule 9.1"; g_path := "plat/a.c";
                g_cid := JInt 101; g_events := [] |} ]
           7 "report.json" false 1).
  - lia.
  - vm_compute. lia.
  - repeat constructor. now exists "mandatory".
Defined.
